(** * Rebalancing vs buy-and-hold simulator (src/app.py)

    A shallow embedding of the simulation that src/app.py runs when the
    "Run Simulation" button is pressed, and the properties of it that the
    specification states.

    Numbers.  The program computes with Python ints and with float64 values
    (numpy scalars taken from a pandas DataFrame).  Integers are modelled
    as [Z].  Floating-point values are modelled as exact rationals [Q]:
    rounding, overflow and the special values inf and nan are not modelled.
    numpy's float64 division never raises (a zero divisor gives inf or nan
    and a RuntimeWarning); [Qdiv] never raises either, but gives 0 there.
    So the model follows the control flow of the program for every price,
    and its amounts for nonzero prices; the statement that cancels a price
    (the equal weights after a rebalance) assumes that price nonzero.
    Equalities between computed amounts are stated with [Qeq] ([==]).

    Dictionaries are [gmap]s with string keys; a failed lookup raises
    [KeyError] as in Python.  Exceptions are threaded through a small error
    monad. *)

From Stdlib Require Import ZArith QArith Qround Lqa Lia.
From stdpp Require Import gmap strings list fin_maps.

(** ** Exceptions and the error monad *)

Inductive exception : Type :=
  | IndexError
  | KeyError (key : string)
  | ZeroDivisionError
  | ValueError.

Definition result (A : Type) : Type := (exception + A)%type.

Definition ret {A : Type} (a : A) : result A := inr a.
Definition raise {A : Type} (e : exception) : result A := inl e.
Definition bind {A B : Type} (m : result A) (k : A → result B) : result B :=
  match m with
  | inl e => inl e
  | inr a => k a
  end.

Notation "'let*' x ':=' c1 'in' c2" := (bind c1 (fun x => c2))
  (at level 10, x name, c1 at level 100, c2 at level 200).

(** A [for] loop over a list whose body may raise: the state is threaded from
    left to right and the first exception ends the loop. *)
Fixpoint for_each {A S : Type} (body : S → A → result S) (xs : list A) (s : S)
    : result S :=
  match xs with
  | [] => ret s
  | x :: xs' => let* s' := body s x in for_each body xs' s'
  end.

(** [d[k]] on a dict. *)
Definition getitem {V : Type} (d : gmap string V) (k : string) : result V :=
  match d !! k with
  | Some v => ret v
  | None => raise (KeyError k)
  end.

(** [enumerate(xs)] *)
Fixpoint enumerate_from {A : Type} (start : nat) (xs : list A) : list (nat * A) :=
  match xs with
  | [] => []
  | x :: xs' => (start, x) :: enumerate_from (S start) xs'
  end.

Definition enumerate {A : Type} (xs : list A) : list (nat * A) := enumerate_from 0 xs.

(** ** Ticker names (lines 25-26) *)

(** [s.replace(".JK", "")]: every non-overlapping occurrence, from the left.
    [skip] counts the characters of an occurrence still to be dropped. *)
Fixpoint replace_JK_from (skip : nat) (s : string) : string :=
  match s with
  | EmptyString => EmptyString
  | String c s' =>
      match skip with
      | S k => replace_JK_from k s'
      | O => if String.prefix ".JK" s then replace_JK_from 2 s'
             else String c (replace_JK_from 0 s')
      end
  end.

Definition replace_JK (s : string) : string := replace_JK_from 0 s.

Definition tickers_clean_of (tickers : list string) : list string :=
  replace_JK <$> tickers.

(** ** The simulation (lines 90-146) *)

(** A cell of a row of [rebalance_log]: the date string or a number. *)
Inductive cell : Type :=
  | Str (s : string)
  | Num (q : Q).

(** The variables of the simulation that live across the loops. *)
Record state : Type := mkState {
  shares_reb : gmap string Q;
  shares_hold : gmap string Q;
  equity_reb_curves : gmap string (list Q);
  equity_hold_curves : gmap string (list Q);
  portfolio_reb_curve : list Q;
  portfolio_hold_curve : list Q;
  rebalance_log : list (gmap string cell)
}.

(** The variables that are reset at the start of every iteration of the loop
    over dates (lines 111-114). *)
Record day_vars : Type := mkDay {
  values_reb : gmap string Q;
  values_hold : gmap string Q;
  total_reb : Q;
  total_hold : Q
}.

Section Simulation.

(** The type of the labels of [prices_df.index] (pandas Timestamps) and the
    formatting [date.strftime("%Y-%m-%d")]. *)
Context {Timestamp : Type} (strftime : Timestamp → string).

(** [prices_df] after [dropna]: one entry per date, holding the index label
    and the row, a mapping from column label to price. *)
Implicit Types prices_df : list (Timestamp * gmap string Q).

(** [prices_df.iloc[i][t]] *)
Definition iloc prices_df (i : nat) : result (gmap string Q) :=
  match prices_df !! i with
  | Some (_, row) => ret row
  | None => raise IndexError
  end.

Definition price_at prices_df (i : nat) (t : string) : result Q :=
  let* row := iloc prices_df i in getitem row t.

(** [{t: [] for t in tickers_clean}] *)
Definition empty_curves (tickers_clean : list string) : gmap string (list Q) :=
  foldl (λ d t, <[t := []]> d) ∅ tickers_clean.

(** [target_weight = 1 / n_assets] (line 91): a true division of ints. *)
Definition target_weight_of (n_assets : nat) : result Q :=
  if (n_assets =? 0)%nat then raise ZeroDivisionError
  else ret (1 / inject_Z (Z.of_nat n_assets))%Q.

(** Lines 93-102. *)
Definition state0 (tickers_clean : list string) : state :=
  {| shares_reb := ∅; shares_hold := ∅;
     equity_reb_curves := empty_curves tickers_clean;
     equity_hold_curves := empty_curves tickers_clean;
     portfolio_reb_curve := []; portfolio_hold_curve := [];
     rebalance_log := [] |}.

(** Body of the initial allocation loop (lines 106-108). *)
Definition init_body (initial_equity : Z) (target_weight : Q) prices_df
    (s : state) (t : string) : result state :=
  let alloc := (inject_Z initial_equity * target_weight)%Q in
  let* p := price_at prices_df 0 t in
  let shares_reb' := <[t := (alloc / p)%Q]> (shares_reb s) in
  let* p' := price_at prices_df 0 t in
  let shares_hold' := <[t := (alloc / p')%Q]> (shares_hold s) in
  ret {| shares_reb := shares_reb'; shares_hold := shares_hold';
         equity_reb_curves := equity_reb_curves s;
         equity_hold_curves := equity_hold_curves s;
         portfolio_reb_curve := portfolio_reb_curve s;
         portfolio_hold_curve := portfolio_hold_curve s;
         rebalance_log := rebalance_log s |}.

(** Body of the valuation loop (lines 117-127). *)
Definition value_body prices_df (i : nat) (sv : state * day_vars) (t : string)
    : result (state * day_vars) :=
  let (s, v) := sv in
  let* sr := getitem (shares_reb s) t in
  let* p := price_at prices_df i t in
  let v_reb := (sr * p)%Q in
  let* sh := getitem (shares_hold s) t in
  let* p' := price_at prices_df i t in
  let v_hold := (sh * p')%Q in
  let* cr := getitem (equity_reb_curves s) t in
  let equity_reb_curves' := <[t := cr ++ [v_reb]]> (equity_reb_curves s) in
  let* ch := getitem (equity_hold_curves s) t in
  let equity_hold_curves' := <[t := ch ++ [v_hold]]> (equity_hold_curves s) in
  ret ({| shares_reb := shares_reb s; shares_hold := shares_hold s;
          equity_reb_curves := equity_reb_curves';
          equity_hold_curves := equity_hold_curves';
          portfolio_reb_curve := portfolio_reb_curve s;
          portfolio_hold_curve := portfolio_hold_curve s;
          rebalance_log := rebalance_log s |},
       {| values_reb := <[t := v_reb]> (values_reb v);
          values_hold := <[t := v_hold]> (values_hold v);
          total_reb := (total_reb v + v_reb)%Q;
          total_hold := (total_hold v + v_hold)%Q |}).

(** [i > 0 and i % rebalance_period == 0] (line 132).  [and] does not
    evaluate the modulus at index 0; a zero period raises elsewhere. *)
Definition is_rebalance_day (i : nat) (rebalance_period : Z) : result bool :=
  if (0 <? Z.of_nat i)%Z then
    if (rebalance_period =? 0)%Z then raise ZeroDivisionError
    else ret (Z.of_nat i mod rebalance_period =? 0)%Z
  else ret false.

(** Body of the reallocation loop (lines 137-144); it updates [shares_reb]
    and the [log_row] under construction. *)
Definition rebalance_body prices_df (i : nat) (target_value : Q)
    (values_reb : gmap string Q)
    (sl : gmap string Q * gmap string cell) (t : string)
    : result (gmap string Q * gmap string cell) :=
  let (shares, log_row) := sl in
  let* v := getitem values_reb t in
  let drift_pct := ((v / target_value - 1) * 100)%Q in
  let* v' := getitem values_reb t in
  let transfer := (target_value - v')%Q in
  let* v'' := getitem values_reb t in
  let log_row1 := <[t +:+ " Equity (Before)" := Num v'']> log_row in
  let log_row2 := <[t +:+ " Drift (%)" := Num drift_pct]> log_row1 in
  let log_row3 := <[t +:+ " Transfer" := Num transfer]> log_row2 in
  let* p := price_at prices_df i t in
  ret (<[t := (target_value / p)%Q]> shares, log_row3).

(** Lines 133-146. *)
Definition rebalance (tickers_clean : list string) (target_weight : Q)
    prices_df (i : nat) (date : Timestamp) (v : day_vars) (s : state)
    : result state :=
  let target_value := (total_reb v * target_weight)%Q in
  let log_row : gmap string cell := {[ "Date" := Str (strftime date) ]} in
  let* sl := for_each (rebalance_body prices_df i target_value (values_reb v))
          tickers_clean (shares_reb s, log_row) in
  ret {| shares_reb := sl.1; shares_hold := shares_hold s;
         equity_reb_curves := equity_reb_curves s;
         equity_hold_curves := equity_hold_curves s;
         portfolio_reb_curve := portfolio_reb_curve s;
         portfolio_hold_curve := portfolio_hold_curve s;
         rebalance_log := rebalance_log s ++ [sl.2] |}.

Definition day_vars0 : day_vars :=
  {| values_reb := ∅; values_hold := ∅; total_reb := 0%Q; total_hold := 0%Q |}.

(** Body of the loop over dates (lines 111-146). *)
Definition day_body (tickers_clean : list string) (target_weight : Q)
    (rebalance_period : Z) prices_df (s : state) (id : nat * Timestamp)
    : result state :=
  let (i, date) := id in
  let* sv := for_each (value_body prices_df i) tickers_clean (s, day_vars0) in
  let (s1, v) := sv : state * day_vars in
  let s2 :=
    {| shares_reb := shares_reb s1; shares_hold := shares_hold s1;
       equity_reb_curves := equity_reb_curves s1;
       equity_hold_curves := equity_hold_curves s1;
       portfolio_reb_curve := portfolio_reb_curve s1 ++ [total_reb v];
       portfolio_hold_curve := portfolio_hold_curve s1 ++ [total_hold v];
       rebalance_log := rebalance_log s1 |} in
  let* b := is_rebalance_day i rebalance_period in
  if b : bool then rebalance tickers_clean target_weight prices_df i date v s2
  else ret s2.

(** The state after the initial allocation (lines 90-108). *)
Definition initialize (tickers_clean : list string) (initial_equity : Z)
    prices_df : result (Q * state) :=
  let* target_weight := target_weight_of (length tickers_clean) in
  let* s := for_each (init_body initial_equity target_weight prices_df)
         tickers_clean (state0 tickers_clean) in
  ret (target_weight, s).

(** The state after the initial allocation and the first [k] iterations of
    the loop over dates. *)
Definition simulate_upto (k : nat) (tickers_clean : list string)
    (initial_equity rebalance_period : Z) prices_df : result state :=
  let* ws := initialize tickers_clean initial_equity prices_df in
  for_each (day_body tickers_clean ws.1 rebalance_period prices_df)
    (take k (enumerate (fst <$> prices_df))) ws.2.

(** The whole simulation: the state when the loop ends (line 146). *)
Definition simulate (tickers_clean : list string)
    (initial_equity rebalance_period : Z) prices_df : result state :=
  simulate_upto (length prices_df) tickers_clean initial_equity
    rebalance_period prices_df.

End Simulation.

(** The last [n] characters of [s] (all of [s] when it is shorter). *)
Fixpoint last_chars (n : nat) (s : string) : string :=
  match s with
  | EmptyString => EmptyString
  | String c s' => if (String.length s' <? n)%nat then s else last_chars n s'
  end.

(** ** What a successful run computes

    The same computation without the exceptions: where the loops above
    return, they return these values (lemmas [value_loop_pure],
    [rebalance_loop_pure] and [day_body_pure] below). *)

Section Pure.

Context {Timestamp : Type} (strftime : Timestamp → string).
Implicit Types prices_df : list (Timestamp * gmap string Q).

(** The price of [t] at row [i]; 0 stands for a lookup that would raise. *)
Definition price prices_df (i : nat) (t : string) : Q :=
  match prices_df !! i with
  | Some (_, row) => default 0%Q (row !! t)
  | None => 0%Q
  end.

(** [shares[t] * prices_df.iloc[i][t]] *)
Definition value_of (shares : gmap string Q) prices_df (i : nat) (t : string) : Q :=
  (default 0 (shares !! t) * price prices_df i t)%Q.

(** The running total of the valuation loop, from [acc]. *)
Definition total_from (acc : Q) (shares : gmap string Q) prices_df (i : nat)
    (ts : list string) : Q :=
  foldl (λ a t, (a + value_of shares prices_df i t)%Q) acc ts.

Definition values_from (acc : gmap string Q) (shares : gmap string Q)
    prices_df (i : nat) (ts : list string) : gmap string Q :=
  foldl (λ d t, <[t := value_of shares prices_df i t]> d) acc ts.

Definition curves_from (acc : gmap string (list Q)) (shares : gmap string Q)
    prices_df (i : nat) (ts : list string) : gmap string (list Q) :=
  foldl (λ d t, <[t := default [] (d !! t) ++ [value_of shares prices_df i t]]> d)
    acc ts.

(** The three entries that the reallocation loop writes for [t]. *)
Definition log_entries (target_value : Q) (v : Q) (t : string)
    (log_row : gmap string cell) : gmap string cell :=
  <[t +:+ " Transfer" := Num (target_value - v)%Q]>
    (<[t +:+ " Drift (%)" := Num ((v / target_value - 1) * 100)%Q]>
       (<[t +:+ " Equity (Before)" := Num v]> log_row)).

Definition log_row_from (acc : gmap string cell) (target_value : Q)
    (values : gmap string Q) (ts : list string) : gmap string cell :=
  foldl (λ r t, log_entries target_value (default 0%Q (values !! t)) t r) acc ts.

Definition shares_from (acc : gmap string Q) (target_value : Q) prices_df
    (i : nat) (ts : list string) : gmap string Q :=
  foldl (λ d t, <[t := (target_value / price prices_df i t)%Q]> d) acc ts.

(** The rebalance predicate as a boolean. *)
Definition rebalance_due (i : nat) (rebalance_period : Z) : bool :=
  (0 <? Z.of_nat i)%Z && (Z.of_nat i mod rebalance_period =? 0)%Z.

Definition day_pure (ts : list string) (target_weight : Q)
    (rebalance_period : Z) prices_df (s : state) (id : nat * Timestamp) : state :=
  let (i, date) := id in
  let total := total_from 0 (shares_reb s) prices_df i ts in
  let target_value := (total * target_weight)%Q in
  let due := rebalance_due i rebalance_period in
  {| shares_reb :=
       if due then shares_from (shares_reb s) target_value prices_df i ts
       else shares_reb s;
     shares_hold := shares_hold s;
     equity_reb_curves :=
       curves_from (equity_reb_curves s) (shares_reb s) prices_df i ts;
     equity_hold_curves :=
       curves_from (equity_hold_curves s) (shares_hold s) prices_df i ts;
     portfolio_reb_curve := portfolio_reb_curve s ++ [total];
     portfolio_hold_curve :=
       portfolio_hold_curve s ++ [total_from 0 (shares_hold s) prices_df i ts];
     rebalance_log :=
       if due then
         rebalance_log s ++
           [log_row_from {[ "Date" := Str (strftime date) ]} target_value
              (values_from ∅ (shares_reb s) prices_df i ts) ts]
       else rebalance_log s |}.

(** The state after the initial allocation. *)
Definition init_pure (ts : list string) (initial_equity : Z) prices_df : state :=
  let target_weight := (1 / inject_Z (Z.of_nat (length ts)))%Q in
  let alloc := (inject_Z initial_equity * target_weight)%Q in
  {| shares_reb := shares_from ∅ alloc prices_df 0 ts;
     shares_hold := shares_from ∅ alloc prices_df 0 ts;
     equity_reb_curves := empty_curves ts;
     equity_hold_curves := empty_curves ts;
     portfolio_reb_curve := []; portfolio_hold_curve := [];
     rebalance_log := [] |}.

(** The state after the initial allocation and [k] iterations. *)
Definition run_pure (k : nat) (ts : list string)
    (initial_equity rebalance_period : Z) prices_df : state :=
  foldl (day_pure ts (1 / inject_Z (Z.of_nat (length ts)))%Q
           rebalance_period prices_df)
    (init_pure ts initial_equity prices_df)
    (take k (enumerate (fst <$> prices_df))).

End Pure.

(** ** Reading the results *)

(** The number stored under [t + " Transfer"] in a row of the log. *)
Definition transfer_of (log_row : gmap string cell) (t : string) : option Q :=
  match log_row !! (t +:+ " Transfer") with
  | Some (Num q) => Some q
  | _ => None
  end.

(** The number stored under [t + " Equity (Before)"]. *)
Definition before_of (log_row : gmap string cell) (t : string) : option Q :=
  match log_row !! (t +:+ " Equity (Before)") with
  | Some (Num q) => Some q
  | _ => None
  end.

(** The number stored under [t + " Drift (%)"]. *)
Definition drift_of (log_row : gmap string cell) (t : string) : option Q :=
  match log_row !! (t +:+ " Drift (%)") with
  | Some (Num q) => Some q
  | _ => None
  end.

(** The string stored under ["Date"]. *)
Definition date_of (log_row : gmap string cell) : option string :=
  match log_row !! "Date" with
  | Some (Str d) => Some d
  | _ => None
  end.

(** [o] holds an amount equal to [q]. *)
Definition is_amount (o : option Q) (q : Q) : Prop :=
  match o with
  | Some x => (x == q)%Q
  | None => False
  end.

(** [o] holds an amount that is [q] when rounded to two decimals. *)
Definition rounds_to (o : option Q) (q : Q) : Prop :=
  match o with
  | Some x => (q - (1 # 200) <= x)%Q ∧ (x < q + (1 # 200))%Q
  | None => False
  end.

(** The [i]-th point of the curve of [t]. *)
Definition curve_at (curves : gmap string (list Q)) (t : string) (i : nat)
    : option Q :=
  match curves !! t with
  | Some l => l !! i
  | None => None
  end.

(** The [j]-th row of the log. *)
Definition log_at (s : state) (j : nat) : gmap string cell :=
  default ∅ (rebalance_log s !! j).

(** The sum of [f t] over the tickers, when every [f t] is there. *)
Fixpoint sum_over (f : string → option Q) (ts : list string) : option Q :=
  match ts with
  | [] => Some 0%Q
  | t :: ts' =>
      match f t, sum_over f ts' with
      | Some q, Some a => Some (q + a)%Q
      | _, _ => None
      end
  end.

(** The sum of [g t] over the tickers. *)
Definition qsum (g : string → Q) (ts : list string) : Q :=
  foldr (λ t a, (g t + a)%Q) 0%Q ts.

(** [N] as a number. *)
Definition n_assets_of (ts : list string) : Q := inject_Z (Z.of_nat (length ts)).



(** What the iteration at index [i] does when it rebalances, from the state
    [s] before it to the state [s'] after it: one row is appended to the
    log, with the date, and for every asset the transfer is the target
    [total / N] minus the value held (zero when the asset is on target) and
    the new share count is the target over the price. *)
Definition rebalance_event_at (ts : list string) (date : string)
    (row : gmap string Q) (i : nat) (s s' : state) : Prop :=
  ∃ log_row total,
    rebalance_log s' = rebalance_log s ++ [log_row] ∧
    date_of log_row = Some date ∧
    portfolio_reb_curve s' !! i = Some total ∧
    ∀ t, t ∈ ts →
      ∃ share p transfer share',
        shares_reb s !! t = Some share ∧ row !! t = Some p ∧
        transfer_of log_row t = Some transfer ∧
        (transfer == total / n_assets_of ts - share * p)%Q ∧
        ((share * p == total / n_assets_of ts)%Q → (transfer == 0)%Q) ∧
        shares_reb s' !! t = Some share' ∧
        (share' == total / n_assets_of ts / p)%Q.

(** The dates at which the cadence asks for a rebalance, as the log
    writes them. *)
Definition cadence_dates {Timestamp : Type} (strftime : Timestamp → string)
    (rebalance_period : Z) (index : list Timestamp) : list string :=
  (λ id, strftime id.2)
    <$> List.filter (λ id, rebalance_due id.1 rebalance_period) (enumerate index).

(** Every row of the table has a price for every ticker. *)
Definition has_columns {Timestamp : Type} (ts : list string)
    (prices_df : list (Timestamp * gmap string Q)) : Prop :=
  Forall (λ dr, Forall (λ t, is_Some (dr.2 !! t)) ts) prices_df.

(** The dicts of the state have an entry for every ticker. *)
Definition keys_ok (ts : list string) (s : state) : Prop :=
  ∀ t, t ∈ ts →
    is_Some (shares_reb s !! t) ∧ is_Some (shares_hold s !! t) ∧
    is_Some (equity_reb_curves s !! t) ∧ is_Some (equity_hold_curves s !! t).

(** Every price of the table is strictly positive. *)
Definition positive_prices {Timestamp : Type}
    (prices_df : list (Timestamp * gmap string Q)) : Prop :=
  Forall (λ dr, map_Forall (λ _ p, (0 < p)%Q) dr.2) prices_df.

(** ** The run (lines 37-63 and 90-146)

    What pressing the button does up to the end of the simulation.  The
    market-data download and the assembly of the price table belong to
    yfinance and pandas and are parameters here; the charts and tables
    drawn afterwards are left out. *)

Inductive ui_event : Type :=
  | UiWarning (msg : string)
  | UiError (msg : string)
  | Download (ticker : string).

Inductive outcome : Type :=
  | Stopped
  | Raised (e : exception)
  | Completed (s : state).

Section Run.

Context {Timestamp Frame : Type} (strftime : Timestamp → string).
(** [yf.download(ticker, ...)] and [df.empty]. *)
Context (download : string → Frame) (frame_empty : Frame → bool).
(** Lines 56-63: the Close columns side by side, relabelled with
    [tickers_clean], rows with a missing value dropped. *)
Context (assemble : list string → list (string * Frame) →
                    result (list (Timestamp * gmap string Q))).

(** The download loop (lines 49-59): the events it causes and the
    [price_data] collected, or nothing after [st.stop()]. *)
Fixpoint fetch (tickers : list string) (price_data : list (string * Frame))
    : list ui_event * option (list (string * Frame)) :=
  match tickers with
  | [] => ([], Some price_data)
  | ticker :: rest =>
      let df := download ticker in
      if frame_empty df then
        ([Download ticker; UiError ("No data for " +:+ ticker)], None)
      else
        let (events, r) := fetch rest (price_data ++ [(replace_JK ticker, df)]) in
        (Download ticker :: events, r)
  end.

Definition run (tickers : list string) (initial_equity rebalance_period : Z)
    : list ui_event * outcome :=
  let tickers_clean := tickers_clean_of tickers in
  if negb ((2 <=? length tickers)%nat && (length tickers <=? 5)%nat) then
    ([UiWarning "Please input between 2 and 5 tickers."], Stopped)
  else
    match fetch tickers [] with
    | (events, None) => (events, Stopped)
    | (events, Some price_data) =>
        match assemble tickers_clean price_data with
        | inl e => (events, Raised e)
        | inr prices_df =>
            match simulate strftime tickers_clean initial_equity
                    rebalance_period prices_df with
            | inl e => (events, Raised e)
            | inr s => (events, Completed s)
            end
        end
    end.

End Run.

(** ** The scenario of the specification

    Two assets A and B, prices A = 100, 110, 121 and B = 200, 190, 180.5,
    an initial equity of 1,000,000 and a rebalance every 2 trading days.
    The dates are given as the strings that the log prints. *)

Definition two_prices (a b : Q) : gmap string Q := <["B" := b]> (<["A" := a]> ∅).

Definition scenario_prices : list (string * gmap string Q) :=
  [ ("2024-01-01", two_prices 100 200);
    ("2024-01-02", two_prices 110 190);
    ("2024-01-03", two_prices 121 (361 # 2)) ].

(** The same two assets with prices that do not move. *)
Definition flat_prices : list (string * gmap string Q) :=
  [ ("2024-01-01", two_prices 100 200);
    ("2024-01-02", two_prices 100 200);
    ("2024-01-03", two_prices 100 200) ].

(** The scenario with the sign of two prices of A changed: the one used by
    the initial allocation and the one used by the reallocation. *)
Definition negative_prices : list (string * gmap string Q) :=
  [ ("2024-01-01", two_prices (-100) 200);
    ("2024-01-02", two_prices 110 190);
    ("2024-01-03", two_prices (-121) (361 # 2)) ].

Definition scenario_tickers : list string := ["A"; "B"].

Definition scenario (k : nat) : result state :=
  simulate_upto (λ d : string, d) k scenario_tickers 1000000 2 scenario_prices.

Definition flat_scenario (k : nat) : result state :=
  simulate_upto (λ d : string, d) k scenario_tickers 1000000 2 flat_prices.

(** The states that these runs reach. *)
Definition scenario_state (k : nat) : state :=
  run_pure (λ d : string, d) k scenario_tickers 1000000 2 scenario_prices.

Definition flat_state (k : nat) : state :=
  run_pure (λ d : string, d) k scenario_tickers 1000000 2 flat_prices.

Definition negative_state (k : nat) : state :=
  run_pure (λ d : string, d) k scenario_tickers 1000000 2 negative_prices.

(** The scenario without a rebalance: a period of 3 for 3 dates. *)
Definition idle_state : state :=
  run_pure (λ d : string, d) 3 scenario_tickers 1000000 3 scenario_prices.

(** ** After the simulation (lines 148-152, 189-204, 211-238 and 252-279)

    The two equity tables, the choice between the history table and the
    message that there is none, and the two summaries, as numbers: the
    formatting of the numbers for display (lines 193-200, 240-243 and
    281-284) and the charts are left out. *)

(** [pd.DataFrame(curves, index=prices_df.index)]: every list must have one
    value per label of the index. *)
Definition make_frame (curves : gmap string (list Q)) (n_index : nat)
    : result (gmap string (list Q)) :=
  if bool_decide (map_Forall (λ _ l, length l = n_index) curves) then ret curves
  else raise ValueError.

(** [df[name] = column] for a list [column]. *)
Definition set_column (df : gmap string (list Q)) (name : string)
    (column : list Q) (n_index : nat) : result (gmap string (list Q)) :=
  if (length column =? n_index)%nat then ret (<[name := column]> df)
  else raise ValueError.

(** [series.iloc[0]] and [series.iloc[-1]] *)
Definition iloc_first (series : list Q) : result Q :=
  match series with
  | [] => raise IndexError
  | x :: _ => ret x
  end.

Definition iloc_last (series : list Q) : result Q :=
  match last series with
  | Some x => ret x
  | None => raise IndexError
  end.

(** [prices_df[t]]: the column of [t], one price per row.  (The rows of a
    DataFrame have the same columns; a table without rows has no row to
    miss the label, and the summaries are only reached with a first
    row.) *)
Definition column {Timestamp : Type}
    (prices_df : list (Timestamp * gmap string Q)) (t : string)
    : result (list Q) :=
  for_each (λ col dr, let* p := getitem dr.2 t in ret (col ++ [p])) prices_df [].

(** A row of a summary table: the dict of lines 221-226 and 231-236. *)
Record summary_row : Type := mkSummaryRow {
  Ticker : string;
  price_growth_pct : option Q;
  final_equity : Q;
  equity_growth_pct : Q
}.

(** Body of the loop of a summary (lines 213-226, and again 254-267) over
    the equity table [equity_df] of the policy. *)
Definition summary_body {Timestamp : Type}
    (prices_df : list (Timestamp * gmap string Q))
    (equity_df : gmap string (list Q)) (initial_equity : Z) (target_weight : Q)
    (rows : list summary_row) (t : string) : result (list summary_row) :=
  let* c := column prices_df t in
  let* start_price := iloc_first c in
  let* c' := column prices_df t in
  let* end_price := iloc_last c' in
  let price_growth := ((end_price / start_price - 1) * 100)%Q in
  let* e := getitem equity_df t in
  let* final := iloc_last e in
  let initial_alloc := (inject_Z initial_equity * target_weight)%Q in
  let equity_growth := ((final / initial_alloc - 1) * 100)%Q in
  ret (rows ++ [ {| Ticker := t; price_growth_pct := Some price_growth;
                    final_equity := final;
                    equity_growth_pct := equity_growth |} ]).

(** A summary (lines 211-238, and again 252-279 with the other table and
    label): a row per ticker, then the row of the portfolio. *)
Definition summary {Timestamp : Type} (label : string)
    (prices_df : list (Timestamp * gmap string Q))
    (equity_df : gmap string (list Q)) (initial_equity : Z) (target_weight : Q)
    (tickers_clean : list string) : result (list summary_row) :=
  let* rows := for_each (summary_body prices_df equity_df initial_equity
                           target_weight) tickers_clean [] in
  let* p := getitem equity_df "Portfolio" in
  let* portfolio_final := iloc_last p in
  let growth := ((portfolio_final / inject_Z initial_equity - 1) * 100)%Q in
  let* p' := getitem equity_df "Portfolio" in
  let* portfolio_final' := iloc_last p' in
  ret (rows ++ [ {| Ticker := label; price_growth_pct := None;
                    final_equity := portfolio_final';
                    equity_growth_pct := growth |} ]).

(** What the history section shows (lines 189-204): the table of the log,
    or a message when the log is empty. *)
Inductive history_view : Type :=
  | HistoryTable (rows : list (gmap string cell))
  | HistoryInfo (msg : string).

Definition history_section (rebalance_log : list (gmap string cell))
    : history_view :=
  match rebalance_log with
  | [] => HistoryInfo "No rebalancing events occurred."
  | _ => HistoryTable rebalance_log
  end.

(** What the run has computed when it ends. *)
Record report_data : Type := mkReport {
  final_state : state;
  equity_reb_df : gmap string (list Q);
  equity_hold_df : gmap string (list Q);
  history : history_view;
  summary_reb : list summary_row;
  summary_hold : list summary_row
}.

(** Lines 90-279, display apart. *)
Definition report {Timestamp : Type} (strftime : Timestamp → string)
    (tickers_clean : list string) (initial_equity rebalance_period : Z)
    (prices_df : list (Timestamp * gmap string Q)) : result report_data :=
  let* target_weight := target_weight_of (length tickers_clean) in
  let* s := simulate strftime tickers_clean initial_equity rebalance_period
              prices_df in
  let* reb0 := make_frame (equity_reb_curves s) (length prices_df) in
  let* reb := set_column reb0 "Portfolio" (portfolio_reb_curve s)
                (length prices_df) in
  let* hold0 := make_frame (equity_hold_curves s) (length prices_df) in
  let* hold := set_column hold0 "Portfolio" (portfolio_hold_curve s)
                 (length prices_df) in
  let* rows_reb := summary "PORTFOLIO (Rebalanced)" prices_df reb
                     initial_equity target_weight tickers_clean in
  let* rows_hold := summary "PORTFOLIO (Buy & Hold)" prices_df hold
                      initial_equity target_weight tickers_clean in
  ret {| final_state := s; equity_reb_df := reb; equity_hold_df := hold;
         history := history_section (rebalance_log s);
         summary_reb := rows_reb; summary_hold := rows_hold |}.

(** What the summaries compute where they return (lemma [summary_pure_eq]
    below): the same expressions with 0 for a lookup that would raise. *)

Definition column_pure {Timestamp : Type}
    (prices_df : list (Timestamp * gmap string Q)) (t : string) : list Q :=
  (λ dr, default 0%Q (dr.2 !! t)) <$> prices_df.

Definition first_of (series : list Q) : Q := default 0%Q (head series).
Definition last_of (series : list Q) : Q := default 0%Q (last series).

Definition summary_row_pure {Timestamp : Type}
    (prices_df : list (Timestamp * gmap string Q))
    (equity_df : gmap string (list Q)) (initial_equity : Z) (target_weight : Q)
    (t : string) : summary_row :=
  let start_price := first_of (column_pure prices_df t) in
  let end_price := last_of (column_pure prices_df t) in
  let final := last_of (default [] (equity_df !! t)) in
  {| Ticker := t;
     price_growth_pct := Some ((end_price / start_price - 1) * 100)%Q;
     final_equity := final;
     equity_growth_pct :=
       ((final / (inject_Z initial_equity * target_weight) - 1) * 100)%Q |}.

Definition portfolio_row_pure (label : string)
    (equity_df : gmap string (list Q)) (initial_equity : Z) : summary_row :=
  let final := last_of (default [] (equity_df !! "Portfolio")) in
  {| Ticker := label; price_growth_pct := None; final_equity := final;
     equity_growth_pct := ((final / inject_Z initial_equity - 1) * 100)%Q |}.

Definition summary_pure {Timestamp : Type} (label : string)
    (prices_df : list (Timestamp * gmap string Q))
    (equity_df : gmap string (list Q)) (initial_equity : Z) (target_weight : Q)
    (ts : list string) : list summary_row :=
  (summary_row_pure prices_df equity_df initial_equity target_weight <$> ts)
  ++ [portfolio_row_pure label equity_df initial_equity].


(** The sum of the final equities shown in the rows of a summary. *)
Definition sum_final_equity (rows : list summary_row) : Q :=
  foldr (λ r a, (final_equity r + a)%Q) 0%Q rows.

(** The report of the scenario. *)
Definition scenario_report : result report_data :=
  report (λ d : string, d) scenario_tickers 1000000 2 scenario_prices.

(** The character [.] and whether a name contains it. *)
Definition dot : Ascii.ascii :=
  match "."%string with
  | String c _ => c
  | EmptyString => Ascii.zero
  end.

Fixpoint has_dot (s : string) : bool :=
  match s with
  | EmptyString => false
  | String c s' => Ascii.eqb c dot || has_dot s'
  end.

(** A market that has data for every ticker but [bad]. *)
Definition all_but (bad : string) (ticker : string) : bool :=
  String.eqb ticker bad.

(** ** The error monad and the loops *)

Lemma bind_inr {A B : Type} (m : result A) (k : A → result B) (b : B) :
  (let* a := m in k a) = inr b → ∃ a, m = inr a ∧ k a = inr b.
Proof. destruct m as [e|a]; simpl; [discriminate | eauto]. Qed.

Lemma for_each_app {A S : Type} (body : S → A → result S) (xs ys : list A) (s : S) :
  for_each body (xs ++ ys) s = (let* s' := for_each body xs s in for_each body ys s').
Proof.
  revert s. induction xs as [|x xs IH]; intros s; simpl; [reflexivity|].
  destruct (body s x) as [e|s1]; simpl; [reflexivity | apply IH].
Qed.

(** Splits a hypothesis [let* x := m in k = inr b]. *)
Ltac inv_bind H :=
  let a := fresh "a" in
  let Ha := fresh "Ha" in
  apply bind_inr in H; destruct H as (a & Ha & H).

Lemma getitem_inr {V : Type} (d : gmap string V) (k : string) (v : V) :
  getitem d k = inr v ↔ d !! k = Some v.
Proof.
  unfold getitem. destruct (d !! k); split; intros H;
    try discriminate; inversion H; reflexivity.
Qed.

Section Loops.

Context {Timestamp : Type} (strftime : Timestamp → string).
Implicit Types prices_df : list (Timestamp * gmap string Q).

Lemma price_at_inr prices_df i t p :
  price_at prices_df i t = inr p →
  ∃ date row, prices_df !! i = Some (date, row) ∧ row !! t = Some p.
Proof.
  unfold price_at, iloc. intros H.
  destruct (prices_df !! i) as [[date row]|] eqn:Hi; simpl in H; [|discriminate].
  apply getitem_inr in H. eauto.
Qed.

Lemma price_at_price prices_df i t p :
  price_at prices_df i t = inr p → price prices_df i t = p.
Proof.
  intros (date & row & Hi & Ht)%price_at_inr.
  unfold price. rewrite Hi, Ht. reflexivity.
Qed.

Lemma value_body_pure prices_df i s v t s' v' :
  value_body prices_df i (s, v) t = inr (s', v') →
  s' = {| shares_reb := shares_reb s; shares_hold := shares_hold s;
          equity_reb_curves := curves_from (equity_reb_curves s) (shares_reb s) prices_df i [t];
          equity_hold_curves := curves_from (equity_hold_curves s) (shares_hold s) prices_df i [t];
          portfolio_reb_curve := portfolio_reb_curve s;
          portfolio_hold_curve := portfolio_hold_curve s;
          rebalance_log := rebalance_log s |} ∧
  v' = {| values_reb := values_from (values_reb v) (shares_reb s) prices_df i [t];
          values_hold := values_from (values_hold v) (shares_hold s) prices_df i [t];
          total_reb := total_from (total_reb v) (shares_reb s) prices_df i [t];
          total_hold := total_from (total_hold v) (shares_hold s) prices_df i [t] |}.
Proof.
  unfold value_body. intros H.
  inv_bind H. inv_bind H. inv_bind H. inv_bind H. inv_bind H. inv_bind H.
  unfold ret in H. injection H as <- <-.
  repeat match goal with
         | H : getitem _ _ = inr _ |- _ => apply getitem_inr in H
         | H : price_at _ _ _ = inr _ |- _ => apply price_at_price in H
         end.
  unfold curves_from, values_from, total_from, value_of; simpl.
  repeat match goal with H : _ !! _ = Some _ |- _ => rewrite H end.
  subst. simpl. split; reflexivity.
Qed.

Lemma value_loop_pure prices_df i ts s v s' v' :
  for_each (value_body prices_df i) ts (s, v) = inr (s', v') →
  s' = {| shares_reb := shares_reb s; shares_hold := shares_hold s;
          equity_reb_curves := curves_from (equity_reb_curves s) (shares_reb s) prices_df i ts;
          equity_hold_curves := curves_from (equity_hold_curves s) (shares_hold s) prices_df i ts;
          portfolio_reb_curve := portfolio_reb_curve s;
          portfolio_hold_curve := portfolio_hold_curve s;
          rebalance_log := rebalance_log s |} ∧
  v' = {| values_reb := values_from (values_reb v) (shares_reb s) prices_df i ts;
          values_hold := values_from (values_hold v) (shares_hold s) prices_df i ts;
          total_reb := total_from (total_reb v) (shares_reb s) prices_df i ts;
          total_hold := total_from (total_hold v) (shares_hold s) prices_df i ts |}.
Proof.
  revert s v. induction ts as [|t ts IH]; intros s v H; simpl in H.
  - injection H as <- <-. destruct s, v. split; reflexivity.
  - inv_bind H. destruct a as [s1 v1].
    apply value_body_pure in Ha as [-> ->].
    apply IH in H as [-> ->]. split; reflexivity.
Qed.

Lemma rebalance_body_pure prices_df i target_value values shares log_row t
    shares' log_row' :
  rebalance_body prices_df i target_value values (shares, log_row) t
    = inr (shares', log_row') →
  shares' = shares_from shares target_value prices_df i [t] ∧
  log_row' = log_row_from log_row target_value values [t].
Proof.
  unfold rebalance_body. intros H.
  inv_bind H. inv_bind H. inv_bind H. inv_bind H.
  unfold ret in H. injection H as <- <-.
  repeat match goal with
         | H : getitem _ _ = inr _ |- _ => apply getitem_inr in H
         | H : price_at _ _ _ = inr _ |- _ => apply price_at_price in H
         end.
  unfold shares_from, log_row_from, log_entries; simpl.
  repeat match goal with H : _ !! _ = Some _ |- _ => rewrite H in * end.
  simplify_eq. split; reflexivity.
Qed.

Lemma rebalance_loop_pure prices_df i target_value values ts shares log_row
    shares' log_row' :
  for_each (rebalance_body prices_df i target_value values) ts (shares, log_row)
    = inr (shares', log_row') →
  shares' = shares_from shares target_value prices_df i ts ∧
  log_row' = log_row_from log_row target_value values ts.
Proof.
  revert shares log_row. induction ts as [|t ts IH]; intros shares log_row H;
    simpl in H.
  - injection H as <- <-. split; reflexivity.
  - inv_bind H. destruct a as [shares1 log_row1].
    apply rebalance_body_pure in Ha as [-> ->].
    apply IH in H as [-> ->]. split; reflexivity.
Qed.

Lemma is_rebalance_day_inr i rebalance_period b :
  is_rebalance_day i rebalance_period = inr b →
  b = rebalance_due i rebalance_period.
Proof.
  unfold is_rebalance_day, rebalance_due.
  destruct (0 <? Z.of_nat i)%Z; simpl.
  - destruct (rebalance_period =? 0)%Z; [discriminate|].
    intros H; injection H as <-; reflexivity.
  - intros H; injection H as <-; reflexivity.
Qed.

Lemma day_body_pure ts target_weight rebalance_period prices_df s id s' :
  day_body strftime ts target_weight rebalance_period prices_df s id = inr s' →
  s' = day_pure strftime ts target_weight rebalance_period prices_df s id.
Proof.
  destruct id as [i date]. unfold day_body, day_pure. intros H.
  inv_bind H. destruct a as [s1 v].
  apply value_loop_pure in Ha as [-> ->]. simpl in H.
  inv_bind H. apply is_rebalance_day_inr in Ha as ->.
  destruct (rebalance_due i rebalance_period).
  - unfold rebalance in H. simpl in H. inv_bind H. destruct a as [sh row].
    apply rebalance_loop_pure in Ha as [-> ->].
    injection H as <-. reflexivity.
  - injection H as <-. reflexivity.
Qed.

Lemma init_body_pure initial_equity target_weight prices_df s t s' :
  init_body initial_equity target_weight prices_df s t = inr s' →
  s' = {| shares_reb :=
            shares_from (shares_reb s)
              (inject_Z initial_equity * target_weight)%Q prices_df 0 [t];
          shares_hold :=
            shares_from (shares_hold s)
              (inject_Z initial_equity * target_weight)%Q prices_df 0 [t];
          equity_reb_curves := equity_reb_curves s;
          equity_hold_curves := equity_hold_curves s;
          portfolio_reb_curve := portfolio_reb_curve s;
          portfolio_hold_curve := portfolio_hold_curve s;
          rebalance_log := rebalance_log s |}.
Proof.
  unfold init_body. intros H. inv_bind H. inv_bind H.
  injection H as <-.
  apply price_at_price in Ha, Ha0. subst. reflexivity.
Qed.

Lemma init_loop_pure initial_equity target_weight prices_df ts s s' :
  for_each (init_body initial_equity target_weight prices_df) ts s = inr s' →
  s' = {| shares_reb :=
            shares_from (shares_reb s)
              (inject_Z initial_equity * target_weight)%Q prices_df 0 ts;
          shares_hold :=
            shares_from (shares_hold s)
              (inject_Z initial_equity * target_weight)%Q prices_df 0 ts;
          equity_reb_curves := equity_reb_curves s;
          equity_hold_curves := equity_hold_curves s;
          portfolio_reb_curve := portfolio_reb_curve s;
          portfolio_hold_curve := portfolio_hold_curve s;
          rebalance_log := rebalance_log s |}.
Proof.
  revert s. induction ts as [|t ts IH]; intros s H; simpl in H.
  - injection H as <-. destruct s. reflexivity.
  - inv_bind H. apply init_body_pure in Ha as ->.
    apply IH in H as ->. reflexivity.
Qed.

Lemma initialize_pure ts initial_equity prices_df w s :
  initialize ts initial_equity prices_df = inr (w, s) →
  length ts ≠ 0%nat ∧
  w = (1 / inject_Z (Z.of_nat (length ts)))%Q ∧
  s = init_pure ts initial_equity prices_df.
Proof.
  unfold initialize, target_weight_of. intros H. inv_bind H.
  destruct (Nat.eqb_spec (length ts) 0) as [|Hn]; [discriminate|].
  injection Ha as <-. inv_bind H. injection H as <- <-.
  apply init_loop_pure in Ha as ->. auto.
Qed.

Lemma day_loop_pure ts w rebalance_period prices_df ids s s' :
  for_each (day_body strftime ts w rebalance_period prices_df) ids s = inr s' →
  s' = foldl (day_pure strftime ts w rebalance_period prices_df) s ids.
Proof.
  revert s. induction ids as [|id ids IH]; intros s H; simpl in H.
  - injection H as <-. reflexivity.
  - inv_bind H. apply day_body_pure in Ha as ->. now apply IH.
Qed.

(** Where the simulation returns, it returns what [run_pure] computes, and
    there is at least one ticker. *)
Lemma simulate_upto_pure k ts initial_equity rebalance_period prices_df s :
  simulate_upto strftime k ts initial_equity rebalance_period prices_df = inr s →
  length ts ≠ 0%nat ∧
  s = run_pure strftime k ts initial_equity rebalance_period prices_df.
Proof.
  unfold simulate_upto. intros H. inv_bind H. destruct a as [w s0].
  apply initialize_pure in Ha as (Hn & -> & ->). simpl in H.
  apply day_loop_pure in H. auto.
Qed.

(** A run that gets through [k] iterations got through every shorter
    prefix. *)
Lemma simulate_upto_prefix j k ts initial_equity rebalance_period prices_df s :
  (j ≤ k)%nat →
  simulate_upto strftime k ts initial_equity rebalance_period prices_df = inr s →
  ∃ s0,
    simulate_upto strftime j ts initial_equity rebalance_period prices_df = inr s0.
Proof.
  unfold simulate_upto. intros Hjk H. inv_bind H. rewrite Ha. simpl.
  rewrite <- (take_drop j (take k _)), take_take, Nat.min_l in H by exact Hjk.
  rewrite for_each_app in H. inv_bind H. eauto.
Qed.

End Loops.

(** ** The keys of a row of the log

    The keys [t + " Equity (Before)"], [t + " Drift (%)"], [t + " Transfer"]
    and ["Date"] are told apart by their last characters. *)

Lemma string_length_app (s1 s2 : string) :
  String.length (s1 +:+ s2) = (String.length s1 + String.length s2)%nat.
Proof. induction s1 as [|c s1 IH]; simpl; [reflexivity | now rewrite IH]. Qed.

Lemma last_chars_app (n : nat) (t sfx : string) :
  (n ≤ String.length sfx)%nat → last_chars n (t +:+ sfx) = last_chars n sfx.
Proof.
  intros Hn. induction t as [|c t IH]; simpl; [reflexivity|].
  rewrite string_length_app.
  destruct (Nat.ltb_spec (String.length t + String.length sfx) n); [lia | exact IH].
Qed.

Lemma string_app_inv_tail (t t' sfx : string) :
  t +:+ sfx = t' +:+ sfx → t = t'.
Proof.
  revert t'. induction t as [|c t IH]; intros [|c' t'] H.
  - reflexivity.
  - apply (f_equal String.length) in H.
    rewrite !string_length_app in H. simpl in H. lia.
  - apply (f_equal String.length) in H.
    rewrite !string_length_app in H. simpl in H. lia.
  - injection H as -> H. f_equal. now apply IH.
Qed.

(** Two keys with different endings are different. *)
Lemma keys_differ (n : nat) (t t' sfx sfx' : string) :
  (n ≤ String.length sfx)%nat → (n ≤ String.length sfx')%nat →
  last_chars n sfx ≠ last_chars n sfx' → t +:+ sfx ≠ t' +:+ sfx'.
Proof.
  intros Hn Hn' Hne Heq. apply Hne.
  rewrite <- (last_chars_app n t sfx Hn), <- (last_chars_app n t' sfx' Hn').
  now rewrite Heq.
Qed.

Lemma key_not_Date (t sfx : string) :
  (1 ≤ String.length sfx)%nat → last_chars 1 sfx ≠ "e" → t +:+ sfx ≠ "Date".
Proof.
  intros Hn Hne Heq. apply Hne.
  rewrite <- (last_chars_app 1 t sfx Hn), Heq. reflexivity.
Qed.

Ltac solve_keys :=
  first
    [ apply (keys_differ 2); [simpl; lia | simpl; lia | discriminate]
    | apply not_eq_sym; apply (keys_differ 2); [simpl; lia | simpl; lia | discriminate]
    | apply key_not_Date; [simpl; lia | discriminate]
    | apply not_eq_sym; apply key_not_Date; [simpl; lia | discriminate] ].

(** ** Lookups in the dicts that the loops build *)

(** Closes an equation between two [if decide (t ∈ _)] once the membership
    facts are known. *)
Ltac by_membership :=
  repeat case_decide;
  first [ reflexivity
        | exfalso;
          repeat match goal with
                 | H : context [_ ∈ _ :: _] |- _ => rewrite elem_of_cons in H
                 | H : _ ∈ [] |- _ => apply elem_of_nil in H
                 end;
          intuition congruence ].

Lemma foldl_insert_lookup {V : Type} (f : string → V) (ts : list string)
    (acc : gmap string V) (t : string) :
  foldl (λ d t, <[t := f t]> d) acc ts !! t
  = if decide (t ∈ ts) then Some (f t) else acc !! t.
Proof.
  revert acc. induction ts as [|t0 ts IH]; intros acc; cbn [foldl].
  - by_membership.
  - rewrite IH. destruct (decide (t0 = t)) as [->|Hne].
    + rewrite lookup_insert_eq. by_membership.
    + rewrite lookup_insert_ne by exact Hne. by_membership.
Qed.

Section Lookups.

Context {Timestamp : Type}.
Implicit Types prices_df : list (Timestamp * gmap string Q).

Lemma shares_from_lookup acc target_value prices_df i ts t :
  shares_from acc target_value prices_df i ts !! t
  = if decide (t ∈ ts) then Some (target_value / price prices_df i t)%Q
    else acc !! t.
Proof. unfold shares_from. apply (foldl_insert_lookup (λ t, _)). Qed.

Lemma values_from_lookup acc shares prices_df i ts t :
  values_from acc shares prices_df i ts !! t
  = if decide (t ∈ ts) then Some (value_of shares prices_df i t) else acc !! t.
Proof. unfold values_from. apply (foldl_insert_lookup (λ t, _)). Qed.

Lemma log_row_from_Date acc target_value values ts :
  log_row_from acc target_value values ts !! "Date" = acc !! "Date".
Proof.
  revert acc. induction ts as [|t0 ts IH]; intros acc; [reflexivity|].
  unfold log_row_from in *. cbn [foldl]. rewrite IH. unfold log_entries.
  rewrite !lookup_insert_ne by solve_keys. reflexivity.
Qed.

Lemma log_row_from_Transfer acc target_value values ts t :
  log_row_from acc target_value values ts !! (t +:+ " Transfer")
  = if decide (t ∈ ts)
    then Some (Num (target_value - default 0 (values !! t))%Q)
    else acc !! (t +:+ " Transfer").
Proof.
  revert acc. induction ts as [|t0 ts IH]; intros acc; cbn [foldl].
  - by_membership.
  - unfold log_row_from in *. cbn [foldl]. rewrite IH. unfold log_entries.
    destruct (decide (t0 = t)) as [->|Hne].
    + rewrite lookup_insert_eq. by_membership.
    + rewrite lookup_insert_ne
        by (intros Heq; apply Hne; eapply string_app_inv_tail, Heq).
      rewrite !lookup_insert_ne by solve_keys.
      by_membership.
Qed.


End Lookups.

(** ** Stepping through the dates *)

Lemma enumerate_from_lookup {A : Type} (n j : nat) (xs : list A) :
  enumerate_from n xs !! j = (λ x, ((n + j)%nat, x)) <$> xs !! j.
Proof.
  revert n j. induction xs as [|x xs IH]; intros n [|j]; simpl; try reflexivity.
  - now rewrite Nat.add_0_r.
  - rewrite IH. now rewrite Nat.add_succ_r.
Qed.

Lemma enumerate_lookup {A : Type} (j : nat) (xs : list A) :
  enumerate xs !! j = (λ x, (j, x)) <$> xs !! j.
Proof. unfold enumerate. now rewrite enumerate_from_lookup. Qed.

Lemma enumerate_length {A : Type} (xs : list A) :
  length (enumerate xs) = length xs.
Proof.
  unfold enumerate. generalize 0%nat.
  induction xs as [|x xs IH]; intros n; simpl; [reflexivity | now rewrite IH].
Qed.

Section Steps.

Context {Timestamp : Type} (strftime : Timestamp → string).
Implicit Types prices_df : list (Timestamp * gmap string Q).

Lemma run_pure_0 ts initial_equity rebalance_period prices_df :
  run_pure strftime 0 ts initial_equity rebalance_period prices_df
  = init_pure ts initial_equity prices_df.
Proof. reflexivity. Qed.

Lemma run_pure_S k ts initial_equity rebalance_period prices_df date row :
  prices_df !! k = Some (date, row) →
  run_pure strftime (S k) ts initial_equity rebalance_period prices_df
  = day_pure strftime ts (1 / inject_Z (Z.of_nat (length ts)))%Q
      rebalance_period prices_df
      (run_pure strftime k ts initial_equity rebalance_period prices_df)
      (k, date).
Proof.
  intros Hk. unfold run_pure.
  rewrite (take_S_r _ k (k, date)), foldl_snoc; [reflexivity|].
  rewrite enumerate_lookup, list_lookup_fmap, Hk. reflexivity.
Qed.

Lemma run_pure_ge k ts initial_equity rebalance_period prices_df :
  (length prices_df ≤ k)%nat →
  run_pure strftime k ts initial_equity rebalance_period prices_df
  = run_pure strftime (length prices_df) ts initial_equity rebalance_period
      prices_df.
Proof.
  intros Hk. unfold run_pure.
  rewrite !take_ge; [reflexivity | |];
    rewrite enumerate_length, length_fmap; lia.
Qed.

(** An invariant of the states of a run: it holds after the initial
    allocation and every iteration keeps it. *)
Lemma run_pure_ind (P : state → Prop) ts initial_equity rebalance_period
    prices_df :
  P (init_pure ts initial_equity prices_df) →
  (∀ k date row s,
     prices_df !! k = Some (date, row) → P s →
     P (day_pure strftime ts (1 / inject_Z (Z.of_nat (length ts)))%Q
          rebalance_period prices_df s (k, date))) →
  ∀ k, P (run_pure strftime k ts initial_equity rebalance_period prices_df).
Proof.
  intros H0 Hstep k. induction k as [|k IH]; [exact H0|].
  destruct (prices_df !! k) as [[date row]|] eqn:Hk.
  - rewrite (run_pure_S _ _ _ _ _ _ _ Hk). eapply Hstep; eauto.
  - apply lookup_ge_None in Hk.
    rewrite run_pure_ge by lia. rewrite <- (run_pure_ge k) by lia. exact IH.
Qed.

End Steps.

(** ** Sums of amounts *)


Lemma n_assets_positive (ts : list string) :
  length ts ≠ 0%nat → (0 < n_assets_of ts)%Q.
Proof.
  intros Hn. unfold n_assets_of, Qlt. simpl. lia.
Qed.

Lemma sum_over_known (f : string → option Q) (g : string → Q) (ts : list string) :
  (∀ t, t ∈ ts → f t = Some (g t)) → sum_over f ts = Some (qsum g ts).
Proof.
  induction ts as [|t ts IH]; intros Hf; simpl; [reflexivity|].
  rewrite (Hf t) by left. rewrite IH; [reflexivity|].
  intros t' Hin. apply Hf. now right.
Qed.


Section Totals.

Context {Timestamp : Type}.
Implicit Types prices_df : list (Timestamp * gmap string Q).

Lemma total_from_qsum acc shares prices_df i ts :
  (total_from acc shares prices_df i ts
   == acc + qsum (value_of shares prices_df i) ts)%Q.
Proof.
  revert acc. induction ts as [|t ts IH]; intros acc.
  - simpl. ring.
  - unfold total_from in *. cbn [foldl qsum foldr]. rewrite IH.
    fold (qsum (value_of shares prices_df i) ts). ring.
Qed.


End Totals.

(** ** Conservation *)



(** ** The rebalance predicate *)

Lemma rebalance_due_true (i : nat) (rebalance_period : Z) :
  rebalance_due i rebalance_period = true
  ↔ (0 < i)%nat ∧ (Z.of_nat i mod rebalance_period = 0)%Z.
Proof.
  unfold rebalance_due. rewrite andb_true_iff, Z.ltb_lt, Z.eqb_eq. lia.
Qed.

Lemma rebalance_due_false (i : nat) (rebalance_period : Z) :
  rebalance_due i rebalance_period = false
  ↔ ¬ ((0 < i)%nat ∧ (Z.of_nat i mod rebalance_period = 0)%Z).
Proof.
  rewrite <- rebalance_due_true.
  destruct (rebalance_due i rebalance_period); split; intros H; congruence.
Qed.

Section Curves.

Context {Timestamp : Type} (strftime : Timestamp → string).
Implicit Types prices_df : list (Timestamp * gmap string Q).

Lemma price_lookup prices_df i date row t p :
  prices_df !! i = Some (date, row) → row !! t = Some p →
  price prices_df i t = p.
Proof. intros Hi Ht. unfold price. now rewrite Hi, Ht. Qed.

Lemma portfolio_reb_curve_length k ts initial_equity rebalance_period prices_df :
  (k ≤ length prices_df)%nat →
  length (portfolio_reb_curve
            (run_pure strftime k ts initial_equity rebalance_period prices_df))
  = k.
Proof.
  induction k as [|k IH]; intros Hk; [reflexivity|].
  destruct (lookup_lt_is_Some_2 prices_df k) as [[date row] Hrow]; [lia|].
  rewrite (run_pure_S _ _ _ _ _ _ _ _ Hrow). unfold day_pure. simpl.
  rewrite length_app, IH by lia. simpl. lia.
Qed.

End Curves.

(** ** Equal weights after a rebalance *)



(** ** Buy and hold *)

Section Hold.

Context {Timestamp : Type} (strftime : Timestamp → string).
Implicit Types prices_df : list (Timestamp * gmap string Q).

Lemma shares_hold_frame k ts initial_equity rebalance_period prices_df :
  shares_hold (run_pure strftime k ts initial_equity rebalance_period prices_df)
  = shares_hold (init_pure ts initial_equity prices_df).
Proof.
  apply (run_pure_ind strftime
           (λ s, shares_hold s
                 = shares_hold (init_pure ts initial_equity prices_df))).
  - reflexivity.
  - intros j date row s _ IH. exact IH.
Qed.

Lemma shares_hold_initial k ts initial_equity rebalance_period prices_df
    t date row p :
  t ∈ ts → prices_df !! 0%nat = Some (date, row) → row !! t = Some p →
  shares_hold (run_pure strftime k ts initial_equity rebalance_period prices_df)
    !! t
  = Some (inject_Z initial_equity * (1 / inject_Z (Z.of_nat (length ts))) / p)%Q.
Proof.
  intros Hin Hrow Hp. rewrite shares_hold_frame. unfold init_pure. simpl.
  rewrite shares_from_lookup, decide_True by exact Hin.
  now rewrite (price_lookup _ _ _ _ _ _ Hrow Hp).
Qed.

End Hold.

(** C3: the share counts of the buy-and-hold tracker are written by the
    initial allocation, (initial_equity / N) / price at the first date for
    each asset, and no later step changes them: after any number of
    iterations the mapping is the one the initial allocation left. *)
Theorem shares_hold_never_mutated {Timestamp : Type}
    (strftime : Timestamp → string) (ts : list string)
    (initial_equity rebalance_period : Z)
    (prices_df : list (Timestamp * gmap string Q)) (k : nat) (s : state) :
  simulate_upto strftime k ts initial_equity rebalance_period prices_df = inr s →
  (∃ s0,
     simulate_upto strftime 0 ts initial_equity rebalance_period prices_df = inr s0 ∧
     shares_hold s = shares_hold s0) ∧
  (∀ t date row p,
     t ∈ ts → prices_df !! 0%nat = Some (date, row) → row !! t = Some p →
     ∃ share,
       shares_hold s !! t = Some share ∧
       (share == inject_Z initial_equity / n_assets_of ts / p)%Q).
Proof.
  intros H.
  destruct (simulate_upto_prefix strftime 0 k _ _ _ _ _ (Nat.le_0_l k) H)
    as [s0 Hs0].
  apply simulate_upto_pure in H as [Hn ->].
  pose proof Hs0 as [_ Hs0']%simulate_upto_pure. rewrite run_pure_0 in Hs0'.
  pose proof (shares_hold_frame strftime k ts initial_equity rebalance_period
                prices_df) as Hframe.
  split.
  - exists s0. split; [exact Hs0|]. now rewrite Hframe, Hs0'.
  - intros t date row p Hin Hrow Hp.
    rewrite (shares_hold_initial strftime k _ _ _ _ _ _ _ _ Hin Hrow Hp).
    eexists. split; [reflexivity|]. unfold n_assets_of, Qdiv. ring.
Qed.

Lemma shares_hold_never_mutated_witness :
  scenario 3 = inr (scenario_state 3) ∧
  (∃ s0, scenario 0 = inr s0 ∧ shares_hold (scenario_state 3) = shares_hold s0) ∧
  (∀ t date row p,
     t ∈ scenario_tickers → scenario_prices !! 0%nat = Some (date, row) →
     row !! t = Some p →
     ∃ share,
       shares_hold (scenario_state 3) !! t = Some share ∧
       (share == inject_Z 1000000 / n_assets_of scenario_tickers / p)%Q).
Proof.
  split; [vm_compute; reflexivity|].
  apply (shares_hold_never_mutated (λ d : string, d) scenario_tickers
           1000000 2 scenario_prices 3).
  vm_compute. reflexivity.
Defined.

(** ** The simulation returns

    No price makes the simulation raise: it returns as soon as there is a
    ticker, a first row, a price for every ticker in every row, and a
    nonzero period. *)

Lemma for_each_returns {A S : Type} (I : S → Prop) (body : S → A → result S)
    (xs : list A) (s : S) :
  I s →
  (∀ s x, x ∈ xs → I s → ∃ s', body s x = inr s' ∧ I s') →
  ∃ s', for_each body xs s = inr s' ∧ I s'.
Proof.
  revert s. induction xs as [|x xs IH]; intros s Hs Hbody; simpl.
  - eauto.
  - destruct (Hbody s x) as (s1 & -> & Hs1); [left | exact Hs |]. simpl.
    apply IH; [exact Hs1|]. intros s2 y Hy. apply Hbody. now right.
Qed.

Section Returns.

Context {Timestamp : Type} (strftime : Timestamp → string).
Implicit Types prices_df : list (Timestamp * gmap string Q).

Lemma price_at_returns ts prices_df i date row t :
  has_columns ts prices_df → prices_df !! i = Some (date, row) → t ∈ ts →
  ∃ p, price_at prices_df i t = inr p.
Proof.
  intros Hcols Hi Hin. unfold has_columns in Hcols.
  rewrite Forall_lookup in Hcols. specialize (Hcols i _ Hi). simpl in Hcols.
  rewrite Forall_forall in Hcols. destruct (Hcols t Hin) as [p Hp].
  exists p. unfold price_at, iloc. rewrite Hi. simpl.
  now apply getitem_inr.
Qed.

Lemma curves_from_is_Some acc shares prices_df i ts t :
  is_Some (acc !! t) → is_Some (curves_from acc shares prices_df i ts !! t).
Proof.
  revert acc. induction ts as [|t0 ts IH]; intros acc Hacc; [exact Hacc|].
  unfold curves_from in *. cbn [foldl]. apply IH.
  apply lookup_insert_is_Some'. now right.
Qed.

Lemma shares_from_is_Some acc target_value prices_df i ts t :
  is_Some (acc !! t) →
  is_Some (shares_from acc target_value prices_df i ts !! t).
Proof.
  intros Hacc. rewrite shares_from_lookup. case_decide; [eauto | exact Hacc].
Qed.

Lemma keys_ok_init ts initial_equity prices_df :
  keys_ok ts (init_pure ts initial_equity prices_df).
Proof.
  intros t Hin. unfold init_pure, empty_curves. simpl.
  rewrite shares_from_lookup, (foldl_insert_lookup (λ _, [])).
  rewrite !decide_True by exact Hin. eauto.
Qed.

Lemma keys_ok_day ts w rebalance_period prices_df s id :
  keys_ok ts s → keys_ok ts (day_pure strftime ts w rebalance_period prices_df s id).
Proof.
  intros Hs t Hin. destruct (Hs t Hin) as (H1 & H2 & H3 & H4).
  destruct id as [i date]. unfold day_pure. simpl.
  repeat split; try (now apply curves_from_is_Some); [|exact H2].
  destruct (rebalance_due i rebalance_period);
    [now apply shares_from_is_Some | exact H1].
Qed.

Lemma value_body_returns ts prices_df i date row s v t :
  has_columns ts prices_df → prices_df !! i = Some (date, row) →
  keys_ok ts s → t ∈ ts →
  ∃ sv', value_body prices_df i (s, v) t = inr sv' ∧ keys_ok ts sv'.1.
Proof.
  intros Hcols Hi Hs Hin.
  destruct (Hs t Hin) as ([sr Hsr] & [sh Hsh] & [cr Hcr] & [ch Hch]).
  destruct (price_at_returns ts _ _ _ _ t Hcols Hi Hin) as [p Hp].
  unfold value_body.
  rewrite (proj2 (getitem_inr _ _ _) Hsr), Hp,
    (proj2 (getitem_inr _ _ _) Hsh), (proj2 (getitem_inr _ _ _) Hcr),
    (proj2 (getitem_inr _ _ _) Hch).
  simpl. eexists. split; [reflexivity|]. simpl.
  intros t' Hin'. destruct (Hs t' Hin') as (H1 & H2 & H3 & H4). simpl.
  repeat split; try assumption; apply lookup_insert_is_Some'; now right.
Qed.

Lemma rebalance_body_returns ts prices_df i date row target_value values sl t :
  has_columns ts prices_df → prices_df !! i = Some (date, row) →
  is_Some (values !! t) → t ∈ ts →
  ∃ sl', rebalance_body prices_df i target_value values sl t = inr sl'.
Proof.
  intros Hcols Hi [v Hv] Hin. destruct sl as [shares log_row].
  destruct (price_at_returns ts _ _ _ _ t Hcols Hi Hin) as [p Hp].
  unfold rebalance_body.
  rewrite (proj2 (getitem_inr _ _ _) Hv), Hp. simpl. eauto.
Qed.

Lemma is_rebalance_day_returns i rebalance_period :
  rebalance_period ≠ 0%Z →
  is_rebalance_day i rebalance_period = inr (rebalance_due i rebalance_period).
Proof.
  intros Hp. unfold is_rebalance_day, rebalance_due.
  destruct (0 <? Z.of_nat i)%Z; [|reflexivity].
  destruct (Z.eqb_spec rebalance_period 0); [contradiction | reflexivity].
Qed.

Lemma day_body_returns ts w rebalance_period prices_df s i date row :
  has_columns ts prices_df → prices_df !! i = Some (date, row) →
  rebalance_period ≠ 0%Z → keys_ok ts s →
  ∃ s', day_body strftime ts w rebalance_period prices_df s (i, date) = inr s'
        ∧ keys_ok ts s'.
Proof.
  intros Hcols Hi Hp Hs.
  assert (∃ s', day_body strftime ts w rebalance_period prices_df s (i, date)
                = inr s') as [s' Hs'].
  { unfold day_body.
    destruct (for_each_returns (λ sv, keys_ok ts sv.1)
                (value_body prices_df i) ts (s, day_vars0)) as ([s1 v] & Hv & Hs1).
    - exact Hs.
    - intros [s1 v1] t Hin Hs1. now apply (value_body_returns ts _ _ date row).
    - rewrite Hv. simpl. rewrite (is_rebalance_day_returns _ _ Hp). simpl.
      destruct (rebalance_due i rebalance_period); [|eauto].
      unfold rebalance. cbn [shares_reb].
      apply value_loop_pure in Hv as [-> ->]. cbn [values_reb total_reb].
      edestruct (for_each_returns (λ _, True)
                   (rebalance_body prices_df i
                      (total_from 0 (shares_reb s) prices_df i ts * w)
                      (values_from ∅ (shares_reb s) prices_df i ts)) ts)
        as (sl & Hsl & _); [exact I | | rewrite Hsl; simpl; eauto].
      intros sl t Hin _.
      destruct (rebalance_body_returns ts prices_df i date row
                  (total_from 0 (shares_reb s) prices_df i ts * w)
                  (values_from ∅ (shares_reb s) prices_df i ts) sl t)
        as [sl' Hsl']; auto.
      + rewrite values_from_lookup, decide_True by exact Hin. eauto.
      + eauto. }
  exists s'. split; [exact Hs'|].
  apply day_body_pure in Hs' as ->. now apply keys_ok_day.
Qed.

Lemma initialize_returns ts initial_equity prices_df :
  ts ≠ [] → prices_df ≠ [] → has_columns ts prices_df →
  ∃ ws, initialize ts initial_equity prices_df = inr ws.
Proof.
  intros Hts Hdf Hcols. unfold initialize, target_weight_of.
  destruct ts as [|t0 ts']; [contradiction|]. cbn [length Nat.eqb bind ret].
  destruct prices_df as [|[date row] rest]; [contradiction|].
  edestruct (for_each_returns (λ _, True)
               (init_body initial_equity
                  (1 / inject_Z (Z.of_nat (S (length ts'))))
                  ((date, row) :: rest)) (t0 :: ts'))
    as (s & Hs & _); [exact I | | rewrite Hs; simpl; eauto].
  intros s t Hin _.
  destruct (price_at_returns (t0 :: ts') ((date, row) :: rest) 0 date row t)
    as [p Hp]; auto.
  unfold init_body. rewrite Hp. simpl. eauto.
Qed.

Lemma simulate_upto_returns k ts initial_equity rebalance_period prices_df :
  ts ≠ [] → prices_df ≠ [] → has_columns ts prices_df →
  rebalance_period ≠ 0%Z →
  ∃ s, simulate_upto strftime k ts initial_equity rebalance_period prices_df
       = inr s.
Proof.
  intros Hts Hdf Hcols Hp. unfold simulate_upto.
  destruct (initialize_returns ts initial_equity prices_df) as [[w s0] Hinit];
    auto.
  rewrite Hinit. simpl.
  apply initialize_pure in Hinit as (_ & _ & ->).
  edestruct (for_each_returns (keys_ok ts)
               (day_body strftime ts w rebalance_period prices_df)
               (take k (enumerate (fst <$> prices_df))))
    as (s & Hs & _); [apply keys_ok_init | | eauto].
  intros s [i date] Hin Hs.
  apply elem_of_take in Hin as (j & Hj & _).
  rewrite enumerate_lookup, list_lookup_fmap in Hj.
  destruct (prices_df !! j) as [[date' row]|] eqn:Hrow; [|discriminate].
  simpl in Hj. injection Hj as <- <-.
  now apply (day_body_returns ts w _ _ s j date' row).
Qed.

End Returns.

(** ** No rebalance *)

(** C4: when rebalance_period > len(series) - 1, the rebalance log is empty
    and the curves of the rebalanced tracker, per asset and total, are
    those of the buy-and-hold tracker; and the simulation does return them
    for a well-formed table. *)
Theorem no_rebalance_matches_buy_and_hold {Timestamp : Type}
    (strftime : Timestamp → string) (ts : list string)
    (initial_equity rebalance_period : Z)
    (prices_df : list (Timestamp * gmap string Q)) :
  (Z.of_nat (length prices_df) - 1 < rebalance_period)%Z →
  (∀ s,
     simulate strftime ts initial_equity rebalance_period prices_df = inr s →
     rebalance_log s = [] ∧
     equity_reb_curves s = equity_hold_curves s ∧
     portfolio_reb_curve s = portfolio_hold_curve s) ∧
  (ts ≠ [] → prices_df ≠ [] → has_columns ts prices_df →
   ∃ s, simulate strftime ts initial_equity rebalance_period prices_df = inr s).
Proof.
  intros Hperiod. split.
  - intros s [Hn ->]%simulate_upto_pure.
    enough (H : rebalance_log (run_pure strftime (length prices_df) ts
                                 initial_equity rebalance_period prices_df) = []
                ∧ shares_reb (run_pure strftime (length prices_df) ts
                                initial_equity rebalance_period prices_df)
                  = shares_hold (run_pure strftime (length prices_df) ts
                                   initial_equity rebalance_period prices_df)
                ∧ equity_reb_curves (run_pure strftime (length prices_df) ts
                                       initial_equity rebalance_period prices_df)
                  = equity_hold_curves (run_pure strftime (length prices_df) ts
                                          initial_equity rebalance_period prices_df)
                ∧ portfolio_reb_curve (run_pure strftime (length prices_df) ts
                                         initial_equity rebalance_period prices_df)
                  = portfolio_hold_curve (run_pure strftime (length prices_df) ts
                                            initial_equity rebalance_period prices_df))
      by tauto.
    apply (run_pure_ind strftime
             (λ s, rebalance_log s = [] ∧ shares_reb s = shares_hold s ∧
                   equity_reb_curves s = equity_hold_curves s ∧
                   portfolio_reb_curve s = portfolio_hold_curve s)).
    + repeat split; reflexivity.
    + intros k date row s Hk (Hlog & Hshares & Hcurves & Hportfolio).
      assert (Hdue : rebalance_due k rebalance_period = false).
      { apply rebalance_due_false. intros [Hpos Hmod].
        apply lookup_lt_Some in Hk.
        rewrite Z.mod_small in Hmod by lia. lia. }
      unfold day_pure. rewrite Hdue. simpl.
      rewrite Hshares, Hcurves, Hportfolio. auto.
  - intros Hts Hdf Hcols. apply simulate_upto_returns; auto.
    destruct prices_df; [contradiction | simpl in Hperiod; lia].
Qed.

Lemma no_rebalance_matches_buy_and_hold_witness :
  simulate (λ d : string, d) scenario_tickers 1000000 3 scenario_prices
    = inr idle_state ∧
  rebalance_log idle_state = [] ∧
  equity_reb_curves idle_state = equity_hold_curves idle_state ∧
  portfolio_reb_curve idle_state = portfolio_hold_curve idle_state.
Proof.
  split; [vm_compute; reflexivity|].
  apply (no_rebalance_matches_buy_and_hold (λ d : string, d) scenario_tickers
           1000000 3 scenario_prices).
  - simpl. lia.
  - vm_compute. reflexivity.
Defined.

(** ** Share counts are not negative *)

Section Signs.

Context {Timestamp : Type}.
Implicit Types prices_df : list (Timestamp * gmap string Q).

Lemma price_nonneg prices_df i t :
  positive_prices prices_df → (0 <= price prices_df i t)%Q.
Proof.
  intros Hpos. unfold price.
  destruct (prices_df !! i) as [[date row]|] eqn:Hi; [|apply Qle_refl].
  destruct (row !! t) as [p|] eqn:Ht; simpl; [|apply Qle_refl].
  unfold positive_prices in Hpos. rewrite Forall_lookup in Hpos.
  apply Qlt_le_weak. exact (Hpos i _ Hi t p Ht).
Qed.

Lemma value_of_nonneg shares prices_df i t :
  positive_prices prices_df → map_Forall (λ _ q, (0 <= q)%Q) shares →
  (0 <= value_of shares prices_df i t)%Q.
Proof.
  intros Hpos Hsh. unfold value_of. apply Qmult_le_0_compat.
  - destruct (shares !! t) as [q|] eqn:Hq; simpl; [|apply Qle_refl].
    exact (Hsh t q Hq).
  - now apply price_nonneg.
Qed.

Lemma total_from_nonneg acc shares prices_df i ts :
  positive_prices prices_df → map_Forall (λ _ q, (0 <= q)%Q) shares →
  (0 <= acc)%Q → (0 <= total_from acc shares prices_df i ts)%Q.
Proof.
  intros Hpos Hsh. revert acc.
  induction ts as [|t ts IH]; intros acc Hacc; [exact Hacc|].
  unfold total_from in *. cbn [foldl]. apply IH.
  pose proof (value_of_nonneg shares prices_df i t Hpos Hsh). lra.
Qed.

Lemma quotient_nonneg (a p : Q) : (0 <= a)%Q → (0 <= p)%Q → (0 <= a / p)%Q.
Proof.
  intros Ha Hp. unfold Qdiv. apply Qmult_le_0_compat; [exact Ha|].
  now apply Qinv_le_0_compat.
Qed.

Lemma quotient_negative (a p : Q) : (0 < a)%Q → (p < 0)%Q → (a / p < 0)%Q.
Proof.
  intros Ha Hp.
  assert (Hopp : (a / p == - (a / - p))%Q) by (field; lra).
  assert (Hpos : (0 < a / - p)%Q) by (apply Qlt_shift_div_l; lra).
  rewrite Hopp. lra.
Qed.

Lemma shares_from_nonneg acc target_value prices_df i ts :
  positive_prices prices_df → (0 <= target_value)%Q →
  map_Forall (λ _ q, (0 <= q)%Q) acc →
  map_Forall (λ _ q, (0 <= q)%Q) (shares_from acc target_value prices_df i ts).
Proof.
  intros Hpos Htv. revert acc.
  induction ts as [|t ts IH]; intros acc Hacc; [exact Hacc|].
  unfold shares_from in *. cbn [foldl]. apply IH.
  apply map_Forall_insert_2; [|exact Hacc].
  apply quotient_nonneg; [exact Htv | now apply price_nonneg].
Qed.

Lemma target_weight_nonneg (ts : list string) :
  (0 <= 1 / inject_Z (Z.of_nat (length ts)))%Q.
Proof.
  apply quotient_nonneg; [discriminate|].
  unfold Qle. simpl. lia.
Qed.

End Signs.

(** C9: with a positive initial equity and strictly positive prices at every
    date, every share count held by either tracker is non-negative, after
    the initial allocation and after every iteration (so after every
    rebalance). *)
Theorem share_counts_non_negative {Timestamp : Type}
    (strftime : Timestamp → string) (ts : list string)
    (initial_equity rebalance_period : Z)
    (prices_df : list (Timestamp * gmap string Q)) (k : nat) (s : state) :
  (0 < initial_equity)%Z → positive_prices prices_df →
  simulate_upto strftime k ts initial_equity rebalance_period prices_df = inr s →
  ∀ t q, shares_reb s !! t = Some q ∨ shares_hold s !! t = Some q → (0 <= q)%Q.
Proof.
  intros Heq Hpos [Hn ->]%simulate_upto_pure.
  enough (H : map_Forall (λ _ q, (0 <= q)%Q)
                (shares_reb (run_pure strftime k ts initial_equity
                               rebalance_period prices_df))
              ∧ map_Forall (λ _ q, (0 <= q)%Q)
                  (shares_hold (run_pure strftime k ts initial_equity
                                  rebalance_period prices_df))).
  { destruct H as [Hr Hh]. intros t q [Hq|Hq]; [exact (Hr t q Hq) | exact (Hh t q Hq)]. }
  apply (run_pure_ind strftime
           (λ s, map_Forall (λ _ q, (0 <= q)%Q) (shares_reb s) ∧
                 map_Forall (λ _ q, (0 <= q)%Q) (shares_hold s))).
  - assert (Halloc : (0 <= inject_Z initial_equity
                           * (1 / inject_Z (Z.of_nat (length ts))))%Q).
    { apply Qmult_le_0_compat; [|apply target_weight_nonneg].
      unfold Qle. simpl. lia. }
    unfold init_pure. simpl.
    split; apply shares_from_nonneg; auto; apply map_Forall_empty.
  - intros j date row s _ [Hr Hh]. unfold day_pure. simpl.
    split; [|exact Hh].
    destruct (rebalance_due j rebalance_period); [|exact Hr].
    apply shares_from_nonneg; auto.
    apply Qmult_le_0_compat; [|apply target_weight_nonneg].
    apply total_from_nonneg; auto. apply Qle_refl.
Qed.

Lemma scenario_prices_positive : positive_prices scenario_prices.
Proof.
  unfold positive_prices, scenario_prices, two_prices.
  repeat constructor; simpl;
    repeat (apply map_Forall_insert_2; [reflexivity|]); apply map_Forall_empty.
Qed.

Lemma share_counts_non_negative_witness :
  scenario 3 = inr (scenario_state 3) ∧
  ∀ t q,
    shares_reb (scenario_state 3) !! t = Some q
    ∨ shares_hold (scenario_state 3) !! t = Some q →
    (0 <= q)%Q.
Proof.
  split; [vm_compute; reflexivity|].
  apply (share_counts_non_negative (λ d : string, d) scenario_tickers
           1000000 2 scenario_prices 3).
  - lia.
  - exact scenario_prices_positive.
  - vm_compute. reflexivity.
Defined.

(** ** The cadence *)

Section Cadence.

Context {Timestamp : Type} (strftime : Timestamp → string).
Implicit Types prices_df : list (Timestamp * gmap string Q).

(** The last iteration of a run of [S i] iterations. *)
Lemma simulate_upto_S i ts initial_equity rebalance_period prices_df date row s' :
  prices_df !! i = Some (date, row) →
  simulate_upto strftime (S i) ts initial_equity rebalance_period prices_df
    = inr s' →
  ∃ s,
    simulate_upto strftime i ts initial_equity rebalance_period prices_df = inr s ∧
    day_body strftime ts (1 / inject_Z (Z.of_nat (length ts)))%Q
      rebalance_period prices_df s (i, date) = inr s'.
Proof.
  intros Hrow H. unfold simulate_upto in *. inv_bind H. destruct a as [w s0].
  rewrite Ha. simpl in *.
  pose proof Ha as (_ & -> & _)%initialize_pure.
  rewrite (take_S_r _ i (i, date)), for_each_app in H
    by (rewrite enumerate_lookup, list_lookup_fmap, Hrow; reflexivity).
  inv_bind H. exists a. split; [exact Ha0|].
  simpl in H. inv_bind H. injection H as <-. exact Ha1.
Qed.

Lemma date_of_log_row (date : string) target_value values ts :
  date_of (log_row_from {[ "Date" := Str date ]} target_value values ts)
  = Some date.
Proof.
  unfold date_of. now rewrite log_row_from_Date, lookup_singleton_eq.
Qed.

Lemma log_dates_upto k ts initial_equity rebalance_period prices_df :
  date_of <$> rebalance_log
                (run_pure strftime k ts initial_equity rebalance_period prices_df)
  = Some <$> ((λ id : nat * Timestamp, strftime id.2)
                <$> List.filter (λ id, rebalance_due id.1 rebalance_period)
                      (take k (enumerate (fst <$> prices_df)))).
Proof.
  induction k as [|k IH]; [reflexivity|].
  destruct (prices_df !! k) as [[date row]|] eqn:Hk.
  - rewrite (run_pure_S _ _ _ _ _ _ _ _ Hk).
    rewrite (take_S_r _ k (k, date))
      by (rewrite enumerate_lookup, list_lookup_fmap, Hk; reflexivity).
    rewrite List.filter_app, !fmap_app, <- IH. unfold day_pure. simpl.
    destruct (rebalance_due k rebalance_period); simpl.
    + rewrite fmap_app. simpl. now rewrite date_of_log_row.
    + now rewrite app_nil_r.
  - apply lookup_ge_None in Hk.
    rewrite run_pure_ge by lia. rewrite <- (run_pure_ge _ k) by lia.
    rewrite IH. rewrite !take_ge; [reflexivity | |];
      rewrite enumerate_length, length_fmap; lia.
Qed.

End Cadence.

(** C5: a rebalance takes place at date index i exactly when i > 0 and
    i mod rebalance_period = 0: the iteration at such an index appends one
    row, dated with that date, to the log, and the iteration at any other
    index leaves the log and the share counts as they were.  So the dates of
    the log are the dates of the series at those indices, in ascending
    order of index, and with a positive period none of them is before
    index rebalance_period. *)
Theorem rebalance_exactly_on_cadence {Timestamp : Type}
    (strftime : Timestamp → string) (ts : list string)
    (initial_equity rebalance_period : Z)
    (prices_df : list (Timestamp * gmap string Q)) (s : state) :
  simulate strftime ts initial_equity rebalance_period prices_df = inr s →
  date_of <$> rebalance_log s
  = Some <$> cadence_dates strftime rebalance_period (fst <$> prices_df) ∧
  (∀ i date row,
     prices_df !! i = Some (date, row) →
     ∃ si si',
       simulate_upto strftime i ts initial_equity rebalance_period prices_df
         = inr si ∧
       simulate_upto strftime (S i) ts initial_equity rebalance_period prices_df
         = inr si' ∧
       ((0 < i)%nat ∧ (Z.of_nat i mod rebalance_period = 0)%Z →
        ∃ log_row,
          rebalance_log si' = rebalance_log si ++ [log_row] ∧
          date_of log_row = Some (strftime date)) ∧
       (¬ ((0 < i)%nat ∧ (Z.of_nat i mod rebalance_period = 0)%Z) →
        rebalance_log si' = rebalance_log si ∧ shares_reb si' = shares_reb si)) ∧
  ((0 < rebalance_period)%Z →
   ∀ i, (0 < i)%nat → (Z.of_nat i mod rebalance_period = 0)%Z →
        (rebalance_period <= Z.of_nat i)%Z).
Proof.
  intros H. split; [|split].
  - apply simulate_upto_pure in H as [_ ->]. rewrite log_dates_upto.
    unfold cadence_dates. rewrite take_ge; [reflexivity|].
    rewrite enumerate_length, length_fmap. lia.
  - intros i date row Hrow. unfold simulate in H.
    destruct (simulate_upto_prefix strftime (S i) (length prices_df)
                _ _ _ _ _ (lookup_lt_Some _ _ _ Hrow) H) as [si' Hsi'].
    destruct (simulate_upto_S strftime _ _ _ _ _ _ _ _ Hrow Hsi')
      as (si & Hsi & _).
    exists si, si'. split; [exact Hsi|]. split; [exact Hsi'|].
    apply simulate_upto_pure in Hsi as [_ ->].
    apply simulate_upto_pure in Hsi' as [_ ->].
    rewrite (run_pure_S _ _ _ _ _ _ _ _ Hrow). unfold day_pure. split.
    + intros Hdue%rebalance_due_true. rewrite Hdue. simpl.
      eexists. split; [reflexivity|]. apply date_of_log_row.
    + intros Hdue%rebalance_due_false. rewrite Hdue. simpl. auto.
  - intros Hp i Hi Hmod.
    destruct (Z.lt_ge_cases (Z.of_nat i) rebalance_period) as [Hlt|Hge];
      [|exact Hge].
    rewrite Z.mod_small in Hmod by lia. lia.
Qed.

Lemma rebalance_exactly_on_cadence_witness :
  scenario 3 = inr (scenario_state 3) ∧
  date_of <$> rebalance_log (scenario_state 3) = [Some "2024-01-03"].
Proof.
  split; [vm_compute; reflexivity|].
  refine (proj1 (rebalance_exactly_on_cadence (λ d : string, d) scenario_tickers
                   1000000 2 scenario_prices _ _)).
  vm_compute. reflexivity.
Defined.

(** ** Rebalancing is unconditional *)

Section Unconditional.

Context {Timestamp : Type}.
Implicit Types prices_df : list (Timestamp * gmap string Q).

(** A valuation loop that returns has found a share count and a price for
    every ticker. *)
Lemma value_loop_lookups prices_df i ts s v sv' :
  for_each (value_body prices_df i) ts (s, v) = inr sv' →
  ∀ t, t ∈ ts →
    ∃ share p, shares_reb s !! t = Some share ∧ price_at prices_df i t = inr p.
Proof.
  revert s v. induction ts as [|t0 ts IH]; intros s v H t Hin.
  - now apply elem_of_nil in Hin.
  - simpl in H. inv_bind H. destruct a as [s1 v1].
    apply elem_of_cons in Hin as [->|Hin].
    + unfold value_body in Ha. inv_bind Ha. inv_bind Ha.
      apply getitem_inr in Ha0. eauto.
    + pose proof Ha as [-> _]%value_body_pure.
      exact (IH _ _ H t Hin).
Qed.

End Unconditional.

(** C10: at every date index i with i > 0 and i mod rebalance_period = 0
    the iteration appends a row to the log and rewrites the share counts of
    the rebalanced tracker, whatever the values held: no threshold on the
    drift gates it.  The transfer of an asset is total / N minus the value
    it holds, so an asset that is exactly on target gets a zero transfer. *)
Theorem rebalance_is_unconditional {Timestamp : Type}
    (strftime : Timestamp → string) (ts : list string)
    (initial_equity rebalance_period : Z)
    (prices_df : list (Timestamp * gmap string Q))
    (i : nat) (date : Timestamp) (row : gmap string Q) (s s' : state) :
  prices_df !! i = Some (date, row) →
  simulate_upto strftime i ts initial_equity rebalance_period prices_df = inr s →
  simulate_upto strftime (S i) ts initial_equity rebalance_period prices_df = inr s' →
  (0 < i)%nat → (Z.of_nat i mod rebalance_period = 0)%Z →
  rebalance_event_at ts (strftime date) row i s s'.
Proof.
  intros Hrow Hs Hs' Hi Hmod.
  destruct (simulate_upto_S strftime _ _ _ _ _ _ _ _ Hrow Hs') as (s1 & Hs1 & Hday).
  rewrite Hs in Hs1. injection Hs1 as <-.
  assert (Hlook : ∀ t, t ∈ ts →
            ∃ share p, shares_reb s !! t = Some share ∧ row !! t = Some p).
  { unfold day_body in Hday. inv_bind Hday. intros t Hin.
    destruct (value_loop_lookups _ _ _ _ _ _ Ha t Hin) as (share & p & Hsh & Hp).
    apply price_at_inr in Hp as (date' & row' & Hrow' & Hp).
    rewrite Hrow in Hrow'. injection Hrow' as <- <-. eauto. }
  apply day_body_pure in Hday as ->.
  pose proof Hs as [Hn Hs_pure]%simulate_upto_pure.
  assert (Hdue : rebalance_due i rebalance_period = true)
    by (apply rebalance_due_true; auto).
  unfold day_pure. rewrite Hdue.
  set (total := total_from 0 (shares_reb s) prices_df i ts).
  eexists _, total. cbn [rebalance_log portfolio_reb_curve shares_reb].
  split; [reflexivity|]. split; [apply date_of_log_row|]. split.
  { rewrite lookup_app_r; rewrite Hs_pure, portfolio_reb_curve_length
      by (apply lookup_lt_Some in Hrow; lia); [|lia].
    now rewrite Nat.sub_diag. }
  intros t Hin. destruct (Hlook t Hin) as (share & p & Hsh & Hp).
  assert (Hvalue : value_of (shares_reb s) prices_df i t = (share * p)%Q).
  { unfold value_of. now rewrite Hsh, (price_lookup _ _ _ _ _ _ Hrow Hp). }
  exists share, p,
    (total * (1 / inject_Z (Z.of_nat (length ts))) - share * p)%Q,
    (total * (1 / inject_Z (Z.of_nat (length ts))) / p)%Q.
  assert (Htr : (total * (1 / inject_Z (Z.of_nat (length ts))) - share * p
                 == total / n_assets_of ts - share * p)%Q).
  { unfold n_assets_of, Qdiv. ring. }
  repeat split.
  - exact Hsh.
  - exact Hp.
  - unfold transfer_of.
    rewrite log_row_from_Transfer, decide_True by exact Hin.
    rewrite values_from_lookup, decide_True by exact Hin. simpl.
    now rewrite Hvalue.
  - exact Htr.
  - intros Hon. rewrite Htr, Hon. ring.
  - rewrite shares_from_lookup, decide_True by exact Hin.
    now rewrite (price_lookup _ _ _ _ _ _ Hrow Hp).
  - unfold n_assets_of, Qdiv. ring.
Qed.

Lemma rebalance_is_unconditional_witness :
  flat_scenario 2 = inr (flat_state 2) ∧ flat_scenario 3 = inr (flat_state 3) ∧
  rebalance_event_at scenario_tickers "2024-01-03" (two_prices 100 200) 2
    (flat_state 2) (flat_state 3).
Proof.
  split; [vm_compute; reflexivity|].
  split; [vm_compute; reflexivity|].
  apply (rebalance_is_unconditional (λ d : string, d) scenario_tickers
           1000000 2 flat_prices 2 "2024-01-03" (two_prices 100 200)).
  - reflexivity.
  - vm_compute. reflexivity.
  - vm_compute. reflexivity.
  - lia.
  - reflexivity.
Defined.

(** In the flat scenario both assets are on target at index 2; the row is
    written all the same and its two transfers are zero. *)
Example flat_scenario_zero_transfers :
  flat_scenario 3 = inr (flat_state 3) ∧
  length (rebalance_log (flat_state 3)) = 1%nat ∧
  is_amount (transfer_of (log_at (flat_state 3) 0) "A") 0 ∧
  is_amount (transfer_of (log_at (flat_state 3) 0) "B") 0.
Proof. repeat split; vm_compute; reflexivity. Qed.

(** ** The scenario *)

(** C6, as the code computes it: in the scenario the initial share counts
    are A = 5000 and B = 2500; at index 1 the values are A = 550000,
    B = 475000, total 1025000, and nothing is logged; at index 2 the values
    are A = 605000, B = 451250, total 1056250, and the rebalance logs a
    drift of A of 14.56 %, transfers of -76875 for A and 76875 for B, towards
    a target of 528125 each, and leaves share counts A = 4364.67 and
    B = 2925.90. *)
Theorem scenario_figures :
  scenario 0 = inr (scenario_state 0) ∧
  scenario 2 = inr (scenario_state 2) ∧
  scenario 3 = inr (scenario_state 3) ∧
  is_amount (shares_reb (scenario_state 0) !! "A") 5000 ∧
  is_amount (shares_reb (scenario_state 0) !! "B") 2500 ∧
  is_amount (shares_hold (scenario_state 0) !! "A") 5000 ∧
  is_amount (shares_hold (scenario_state 0) !! "B") 2500 ∧
  is_amount (curve_at (equity_reb_curves (scenario_state 2)) "A" 1) 550000 ∧
  is_amount (curve_at (equity_reb_curves (scenario_state 2)) "B" 1) 475000 ∧
  is_amount (portfolio_reb_curve (scenario_state 2) !! 1%nat) 1025000 ∧
  rebalance_log (scenario_state 2) = [] ∧
  is_amount (curve_at (equity_reb_curves (scenario_state 3)) "A" 2) 605000 ∧
  is_amount (curve_at (equity_reb_curves (scenario_state 3)) "B" 2) 451250 ∧
  is_amount (portfolio_reb_curve (scenario_state 3) !! 2%nat) 1056250 ∧
  length (rebalance_log (scenario_state 3)) = 1%nat ∧
  date_of (log_at (scenario_state 3) 0) = Some "2024-01-03" ∧
  is_amount (before_of (log_at (scenario_state 3) 0) "A") 605000 ∧
  is_amount (before_of (log_at (scenario_state 3) 0) "B") 451250 ∧
  rounds_to (drift_of (log_at (scenario_state 3) 0) "A") (1456 # 100) ∧
  is_amount (transfer_of (log_at (scenario_state 3) 0) "A") (-76875) ∧
  is_amount (transfer_of (log_at (scenario_state 3) 0) "B") 76875 ∧
  is_amount (shares_reb (scenario_state 3) !! "A") (528125 / 121) ∧
  is_amount (shares_reb (scenario_state 3) !! "B") (528125 / (361 # 2)) ∧
  rounds_to (shares_reb (scenario_state 3) !! "A") (436467 # 100) ∧
  rounds_to (shares_reb (scenario_state 3) !! "B") (292590 # 100).
Proof.
  repeat apply conj; vm_compute; try reflexivity; discriminate.
Qed.

(** The figures that the specification gives for the scenario are not the
    ones computed: the initial share count of A is 5000, not 2500, and the
    total at index 1 is 1025000, not 750000. *)
Lemma scenario_figures_differ :
  scenario 0 = inr (scenario_state 0) ∧
  scenario 2 = inr (scenario_state 2) ∧
  is_amount (shares_reb (scenario_state 0) !! "A") 5000 ∧
  ¬ is_amount (shares_reb (scenario_state 0) !! "A") 2500 ∧
  is_amount (portfolio_reb_curve (scenario_state 2) !! 1%nat) 1025000 ∧
  ¬ is_amount (portfolio_reb_curve (scenario_state 2) !! 1%nat) 750000.
Proof.
  repeat apply conj; vm_compute; try reflexivity; discriminate.
Qed.

(** ** Prices are not checked *)

(** With a negative price at the first date and at the date of the
    rebalance, the simulation raises nothing: it returns, having given A
    a negative share count in both trackers. *)
Lemma negative_price_raises_nothing :
  simulate (λ d : string, d) scenario_tickers 1000000 2 negative_prices
    = inr (negative_state 3) ∧
  is_amount (shares_hold (negative_state 3) !! "A") (-5000) ∧
  is_amount (shares_reb (negative_state 0) !! "A") (-5000) ∧
  length (rebalance_log (negative_state 3)) = 1%nat ∧
  is_amount (shares_reb (negative_state 3) !! "A") (528125 / -121).
Proof. repeat apply conj; vm_compute; reflexivity. Qed.

(** C7, as the code behaves: the prices are not checked.  Whatever their
    values and signs, the simulation raises no error and returns its
    results as soon as there is a ticker, a first row, a price for every
    ticker in every row and a nonzero period; a negative price at the first
    date gives a negative share count (with a positive initial equity). *)
Theorem prices_are_not_checked {Timestamp : Type}
    (strftime : Timestamp → string) (ts : list string)
    (initial_equity rebalance_period : Z)
    (prices_df : list (Timestamp * gmap string Q)) :
  ts ≠ [] → prices_df ≠ [] → has_columns ts prices_df →
  rebalance_period ≠ 0%Z →
  ∃ s,
    simulate strftime ts initial_equity rebalance_period prices_df = inr s ∧
    ∀ t date row p,
      t ∈ ts → prices_df !! 0%nat = Some (date, row) → row !! t = Some p →
      (0 < initial_equity)%Z → (p < 0)%Q →
      ∃ share, shares_hold s !! t = Some share ∧ (share < 0)%Q.
Proof.
  intros Hts Hdf Hcols Hperiod.
  destruct (simulate_upto_returns strftime (length prices_df) ts initial_equity
              rebalance_period prices_df Hts Hdf Hcols Hperiod) as [s Hs].
  exists s. split; [exact Hs|].
  intros t date row p Hin Hrow Hp Heq Hneg.
  apply simulate_upto_pure in Hs as [Hn ->].
  rewrite (shares_hold_initial strftime _ _ _ _ _ _ _ _ _ Hin Hrow Hp).
  eexists. split; [reflexivity|].
  assert (Halloc : (0 < inject_Z initial_equity
                        * (1 / inject_Z (Z.of_nat (length ts))))%Q).
  { apply Qmult_lt_0_compat; [unfold Qlt; simpl; lia|].
    apply Qlt_shift_div_l; [now apply n_assets_positive | reflexivity]. }
  now apply quotient_negative.
Qed.

Lemma negative_prices_have_columns : has_columns scenario_tickers negative_prices.
Proof.
  unfold has_columns, scenario_tickers, negative_prices.
  repeat constructor; eexists; reflexivity.
Qed.

Lemma prices_are_not_checked_witness :
  ∃ s,
    simulate (λ d : string, d) scenario_tickers 1000000 2 negative_prices = inr s ∧
    ∀ t date row p,
      t ∈ scenario_tickers → negative_prices !! 0%nat = Some (date, row) →
      row !! t = Some p → (0 < 1000000)%Z → (p < 0)%Q →
      ∃ share, shares_hold s !! t = Some share ∧ (share < 0)%Q.
Proof.
  apply (prices_are_not_checked (λ d : string, d) scenario_tickers 1000000 2
           negative_prices).
  - discriminate.
  - discriminate.
  - exact negative_prices_have_columns.
  - lia.
Defined.

(** ** The number of tickers *)

(** C8: with fewer than 2 or more than 5 tickers the run shows the warning
    and stops: nothing is downloaded and no simulation result exists. *)
Theorem ticker_count_rejected {Timestamp Frame : Type}
    (strftime : Timestamp → string)
    (download : string → Frame) (frame_empty : Frame → bool)
    (assemble : list string → list (string * Frame) →
                result (list (Timestamp * gmap string Q)))
    (tickers : list string) (initial_equity rebalance_period : Z) :
  ¬ (2 ≤ length tickers ≤ 5)%nat →
  run strftime download frame_empty assemble tickers initial_equity
    rebalance_period
  = ([UiWarning "Please input between 2 and 5 tickers."], Stopped).
Proof.
  intros Hcount. unfold run.
  destruct (Nat.leb_spec 2 (length tickers));
    destruct (Nat.leb_spec (length tickers) 5); simpl; try reflexivity.
  exfalso. apply Hcount. lia.
Qed.

Lemma ticker_count_rejected_witness :
  run (λ d : string, d) (λ _, tt) (λ _, false) (λ _ _, inr scenario_prices)
    ["BBCA.JK"] 100000000 20
  = ([UiWarning "Please input between 2 and 5 tickers."], Stopped) ∧
  run (λ d : string, d) (λ _, tt) (λ _, false) (λ _ _, inr scenario_prices)
    ["BBCA.JK"; "BMRI.JK"; "BBRI.JK"; "BBNI.JK"; "TLKM.JK"; "ASII.JK"]
    100000000 20
  = ([UiWarning "Please input between 2 and 5 tickers."], Stopped).
Proof.
  split.
  - apply (ticker_count_rejected (λ d : string, d) (λ _, tt) (λ _, false)
             (λ _ _, inr scenario_prices) ["BBCA.JK"] 100000000 20).
    simpl. lia.
  - apply (ticker_count_rejected (λ d : string, d) (λ _, tt) (λ _, false)
             (λ _ _, inr scenario_prices)
             ["BBCA.JK"; "BMRI.JK"; "BBRI.JK"; "BBNI.JK"; "TLKM.JK"; "ASII.JK"]
             100000000 20).
    simpl. lia.
Defined.

(** With a count in range the run goes on to download every ticker. *)
Example run_in_range_downloads :
  fst (run (λ d : string, d) (λ _, tt) (λ _, false)
         (λ _ _, inr scenario_prices) ["A.JK"; "B.JK"] 1000000 2)
  = [Download "A.JK"; Download "B.JK"].
Proof. vm_compute. reflexivity. Qed.

(** ** When the simulation raises *)

Lemma for_each_inl {A S : Type} (body : S → A → result S) (xs : list A) (s : S)
    (e : exception) :
  for_each body xs s = inl e →
  ∃ xs1 x xs2 s',
    xs = xs1 ++ x :: xs2 ∧ for_each body xs1 s = inr s' ∧ body s' x = inl e.
Proof.
  revert s. induction xs as [|x xs IH]; intros s H; simpl in H; [discriminate|].
  destruct (body s x) as [e'|s1] eqn:Hbody; simpl in H.
  - injection H as ->. exists [], x, xs, s. auto.
  - destruct (IH s1 H) as (xs1 & y & xs2 & s' & -> & Hpre & Hy).
    exists (x :: xs1), y, xs2, s'. split; [reflexivity|]. split; [|exact Hy].
    simpl. rewrite Hbody. exact Hpre.
Qed.

Lemma bind_inl {A B : Type} (m : result A) (k : A → result B) (e : exception) :
  (let* a := m in k a) = inl e → m = inl e ∨ ∃ a, m = inr a ∧ k a = inl e.
Proof. destruct m as [e'|a]; simpl; intros H; [left; congruence | eauto]. Qed.

Section Raises.

Context {Timestamp : Type} (strftime : Timestamp → string).
Implicit Types prices_df : list (Timestamp * gmap string Q).

(** A price lookup fails for want of the row or for want of the column. *)
Lemma price_at_inl prices_df i t e :
  price_at prices_df i t = inl e →
  (prices_df !! i = None ∧ e = IndexError) ∨
  (∃ date row,
     prices_df !! i = Some (date, row) ∧ row !! t = None ∧ e = KeyError t).
Proof.
  unfold price_at, iloc.
  destruct (prices_df !! i) as [[date row]|]; simpl.
  - unfold getitem. destruct (row !! t) eqn:Ht; [discriminate|].
    intros H. injection H as <-. right. eauto.
  - intros H. injection H as <-. auto.
Qed.

Lemma init_body_inl initial_equity target_weight prices_df s t e :
  init_body initial_equity target_weight prices_df s t = inl e →
  price_at prices_df 0 t = inl e.
Proof.
  unfold init_body. intros [H|(p & Hp & [H|(p' & Hp' & H)]%bind_inl)]%bind_inl;
    [exact H | exact H | discriminate].
Qed.

Lemma value_body_inl ts prices_df i s v t e :
  keys_ok ts s → t ∈ ts →
  value_body prices_df i (s, v) t = inl e → price_at prices_df i t = inl e.
Proof.
  intros Hs Hin.
  destruct (Hs t Hin) as ([sr Hsr] & [sh Hsh] & [cr Hcr] & [ch Hch]).
  unfold value_body.
  rewrite (proj2 (getitem_inr _ _ _) Hsr), (proj2 (getitem_inr _ _ _) Hsh),
    (proj2 (getitem_inr _ _ _) Hcr), (proj2 (getitem_inr _ _ _) Hch).
  simpl. destruct (price_at prices_df i t) as [e'|p]; simpl; [|discriminate].
  intros H. injection H as <-. reflexivity.
Qed.

Lemma rebalance_body_inl prices_df i target_value values sl t e :
  is_Some (values !! t) →
  rebalance_body prices_df i target_value values sl t = inl e →
  price_at prices_df i t = inl e.
Proof.
  intros [v Hv]. destruct sl as [shares log_row]. unfold rebalance_body.
  rewrite (proj2 (getitem_inr _ _ _) Hv). simpl.
  destruct (price_at prices_df i t) as [e'|p]; simpl; [|discriminate].
  intros H. injection H as <-. reflexivity.
Qed.

Lemma is_rebalance_day_inl i rebalance_period e :
  is_rebalance_day i rebalance_period = inl e →
  e = ZeroDivisionError ∧ rebalance_period = 0%Z ∧ (0 < i)%nat.
Proof.
  unfold is_rebalance_day.
  destruct (Z.ltb_spec 0 (Z.of_nat i)) as [Hi|Hi]; [|discriminate].
  destruct (Z.eqb_spec rebalance_period 0) as [Hp|Hp]; [|discriminate].
  intros He. injection He as <-. repeat split; [assumption | lia].
Qed.

(** The state dicts keep their keys along the valuation loop. *)
Lemma value_loop_keys_ok ts prices_df i xs s v s' v' :
  keys_ok ts s →
  for_each (value_body prices_df i) xs (s, v) = inr (s', v') → keys_ok ts s'.
Proof.
  intros Hs [-> _]%value_loop_pure t Hin.
  destruct (Hs t Hin) as (H1 & H2 & H3 & H4). simpl.
  repeat split; try assumption; now apply curves_from_is_Some.
Qed.

(** What an iteration can raise, from a state that has its keys. *)
Lemma day_body_inl ts w rebalance_period prices_df s i date row e :
  keys_ok ts s → prices_df !! i = Some (date, row) →
  day_body strftime ts w rebalance_period prices_df s (i, date) = inl e →
  (e = ZeroDivisionError ∧ rebalance_period = 0%Z ∧ (0 < i)%nat) ∨
  (∃ t, e = KeyError t ∧ t ∈ ts ∧ row !! t = None).
Proof.
  intros Hs Hrow H.
  assert (Hprice : ∀ t, t ∈ ts → price_at prices_df i t = inl e →
            ∃ t, e = KeyError t ∧ t ∈ ts ∧ row !! t = None).
  { intros t Hin [[Hnone _]|(date' & row' & Hrow' & Ht & ->)]%price_at_inl.
    - congruence.
    - rewrite Hrow in Hrow'. injection Hrow' as <- <-. eauto. }
  unfold day_body in H. apply bind_inl in H as [H|([s1 v] & Hv & H)].
  - right. apply for_each_inl in H as (xs1 & t & xs2 & [s1 v1] & Hxs & Hpre & Ht).
    assert (Hin : t ∈ ts) by (rewrite Hxs; apply elem_of_app; right; left).
    apply (Hprice t Hin).
    eapply value_body_inl; [|exact Hin|exact Ht].
    eapply value_loop_keys_ok; [exact Hs|exact Hpre].
  - simpl in H. apply bind_inl in H as [H|(b & Hb & H)].
    + left. now apply is_rebalance_day_inl in H.
    + destruct b; [|discriminate]. right.
      unfold rebalance in H. apply bind_inl in H as [H|(sl & _ & H)];
        [|discriminate].
      apply for_each_inl in H as (xs1 & t & xs2 & sl & Hxs & _ & Ht).
      assert (Hin : t ∈ ts) by (rewrite Hxs; apply elem_of_app; right; left).
      apply (Hprice t Hin).
      eapply rebalance_body_inl; [|exact Ht].
      apply value_loop_pure in Hv as [_ ->]. simpl.
      rewrite values_from_lookup, decide_True by exact Hin. eauto.
Qed.

Lemma keys_ok_days ts w rebalance_period prices_df ids s :
  keys_ok ts s →
  keys_ok ts (foldl (day_pure strftime ts w rebalance_period prices_df) s ids).
Proof.
  revert s. induction ids as [|id ids IH]; intros s Hs; [exact Hs|].
  simpl. apply IH. now apply keys_ok_day.
Qed.

(** The exceptions of the simulation: a division by zero for want of a
    ticker or for a zero period from the second date on, an index error for
    want of a first row, or a key error naming a ticker that a row has no
    price for. *)
Lemma simulate_upto_inl k ts initial_equity rebalance_period prices_df e :
  simulate_upto strftime k ts initial_equity rebalance_period prices_df = inl e →
  (e = ZeroDivisionError ∧
   (ts = [] ∨ rebalance_period = 0%Z ∧ (2 ≤ length prices_df)%nat)) ∨
  (e = IndexError ∧ ts ≠ [] ∧ prices_df = []) ∨
  (∃ t i date row,
     e = KeyError t ∧ t ∈ ts ∧ prices_df !! i = Some (date, row) ∧
     row !! t = None).
Proof.
  unfold simulate_upto. intros [H|([w s0] & Hinit & H)]%bind_inl.
  - unfold initialize, target_weight_of in H.
    destruct ts as [|t0 ts']; [left; injection H as <-; auto|].
    cbn [length Nat.eqb bind ret] in H.
    apply bind_inl in H as [H|(s & _ & H)]; [|discriminate].
    apply for_each_inl in H as (xs1 & t & xs2 & s' & Hxs & _ & Ht).
    assert (Hin : t ∈ t0 :: ts') by (rewrite Hxs; apply elem_of_app; right; left).
    apply init_body_inl, price_at_inl in Ht
      as [[Hnone ->]|(date & row & Hrow & Ht & ->)].
    + right; left. split; [reflexivity|]. split; [discriminate|].
      destruct prices_df; [reflexivity | discriminate].
    + right; right. exists t, 0%nat, date, row. auto.
  - simpl in H. apply initialize_pure in Hinit as (_ & _ & ->).
    apply for_each_inl in H as (xs1 & [i date] & xs2 & s' & Hxs & Hpre & Hday).
    apply day_loop_pure in Hpre as ->.
    assert (Hin : (i, date) ∈ take k (enumerate (fst <$> prices_df)))
      by (rewrite Hxs; apply elem_of_app; right; left).
    apply elem_of_take in Hin as (j & Hj & _).
    rewrite enumerate_lookup, list_lookup_fmap in Hj.
    destruct (prices_df !! j) as [[date' row]|] eqn:Hrow; [|discriminate].
    simpl in Hj. injection Hj as <- <-.
    eapply day_body_inl in Hday as [(-> & Hp & Hi)|(t & -> & Hin & Ht)];
      [| |apply keys_ok_days, keys_ok_init|exact Hrow].
    + left. split; [reflexivity|]. right. split; [exact Hp|].
      apply lookup_lt_Some in Hrow. lia.
    + right; right. exists t, j, date', row. auto.
Qed.

End Raises.

(** ** When the simulation returns *)

Section WellFormed.

Context {Timestamp : Type} (strftime : Timestamp → string).
Implicit Types prices_df : list (Timestamp * gmap string Q).

Lemma is_rebalance_day_returns_at i rebalance_period :
  ((0 < i)%nat → rebalance_period ≠ 0%Z) →
  is_rebalance_day i rebalance_period = inr (rebalance_due i rebalance_period).
Proof.
  intros Hp. unfold is_rebalance_day, rebalance_due.
  destruct (Z.ltb_spec 0 (Z.of_nat i)) as [Hi|Hi]; [|reflexivity].
  destruct (Z.eqb_spec rebalance_period 0) as [Hz|Hz]; [|reflexivity].
  exfalso. apply Hp; [lia | exact Hz].
Qed.

Lemma day_body_returns_at ts w rebalance_period prices_df s i date row :
  has_columns ts prices_df → prices_df !! i = Some (date, row) →
  ((0 < i)%nat → rebalance_period ≠ 0%Z) → keys_ok ts s →
  ∃ s', day_body strftime ts w rebalance_period prices_df s (i, date) = inr s'
        ∧ keys_ok ts s'.
Proof.
  intros Hcols Hi Hp Hs.
  destruct (day_body strftime ts w rebalance_period prices_df s (i, date))
    as [e|s'] eqn:Hday.
  - exfalso.
    destruct (day_body_inl strftime _ _ _ _ _ _ _ _ _ Hs Hi Hday)
      as [(_ & Hz & Hpos)|(t & _ & Hin & Ht)].
    + now apply Hp.
    + destruct (price_at_returns ts _ _ _ _ t Hcols Hi Hin) as [p Hprice].
      apply price_at_inr in Hprice as (date' & row' & Hrow' & Ht').
      rewrite Hi in Hrow'. injection Hrow' as <- <-. congruence.
  - exists s'. split; [reflexivity|].
    apply day_body_pure in Hday as ->. now apply keys_ok_day.
Qed.

Lemma simulate_upto_returns_wf k ts initial_equity rebalance_period prices_df :
  ts ≠ [] → prices_df ≠ [] → has_columns ts prices_df →
  (rebalance_period ≠ 0%Z ∨ (length prices_df ≤ 1)%nat) →
  ∃ s, simulate_upto strftime k ts initial_equity rebalance_period prices_df
       = inr s.
Proof.
  intros Hts Hdf Hcols Hp. unfold simulate_upto.
  destruct (initialize_returns ts initial_equity prices_df) as [[w s0] Hinit];
    auto.
  rewrite Hinit. simpl.
  apply initialize_pure in Hinit as (_ & _ & ->).
  edestruct (for_each_returns (keys_ok ts)
               (day_body strftime ts w rebalance_period prices_df)
               (take k (enumerate (fst <$> prices_df))))
    as (s & Hs & _); [eapply keys_ok_init | | eauto].
  intros s [i date] Hin Hs.
  apply elem_of_take in Hin as (j & Hj & _).
  rewrite enumerate_lookup, list_lookup_fmap in Hj.
  destruct (prices_df !! j) as [[date' row]|] eqn:Hrow; [|discriminate].
  simpl in Hj. injection Hj as <- <-.
  apply (day_body_returns_at ts w _ _ s j date' row); auto.
  intros Hpos. destruct Hp as [Hp|Hp]; [exact Hp|].
  apply lookup_lt_Some in Hrow. lia.
Qed.

(** What an iteration that returns has found. *)
Lemma day_body_inr_facts ts w rebalance_period prices_df s i date s' :
  day_body strftime ts w rebalance_period prices_df s (i, date) = inr s' →
  (∀ t, t ∈ ts →
     ∃ share p, shares_reb s !! t = Some share ∧ price_at prices_df i t = inr p) ∧
  ((0 < i)%nat → rebalance_period ≠ 0%Z).
Proof.
  unfold day_body. intros H. inv_bind H. destruct a as [s1 v].
  split.
  - intros t Hin. exact (value_loop_lookups _ _ _ _ _ _ Ha t Hin).
  - simpl in H. inv_bind H. intros Hi Hz.
    unfold is_rebalance_day in Ha0.
    destruct (Z.ltb_spec 0 (Z.of_nat i)); [|lia].
    rewrite Hz in Ha0. discriminate.
Qed.

Lemma simulate_inr_wf ts initial_equity rebalance_period prices_df s :
  simulate strftime ts initial_equity rebalance_period prices_df = inr s →
  ts ≠ [] ∧ prices_df ≠ [] ∧ has_columns ts prices_df ∧
  (rebalance_period ≠ 0%Z ∨ (length prices_df ≤ 1)%nat).
Proof.
  intros H. unfold simulate in H.
  pose proof H as [Hn _]%simulate_upto_pure.
  assert (Hts : ts ≠ []) by (intros ->; now apply Hn).
  assert (Hstep : ∀ i date row, prices_df !! i = Some (date, row) →
            (∀ t, t ∈ ts → is_Some (row !! t)) ∧
            ((0 < i)%nat → rebalance_period ≠ 0%Z)).
  { intros i date row Hrow.
    destruct (simulate_upto_prefix strftime (S i) (length prices_df)
                _ _ _ _ _ (lookup_lt_Some _ _ _ Hrow) H) as [si' Hsi'].
    destruct (simulate_upto_S strftime _ _ _ _ _ _ _ _ Hrow Hsi')
      as (si & _ & Hday).
    apply day_body_inr_facts in Hday as [Hlook Hp]. split; [|exact Hp].
    intros t Hin. destruct (Hlook t Hin) as (share & p & _ & Hprice).
    apply price_at_inr in Hprice as (date' & row' & Hrow' & Ht).
    rewrite Hrow in Hrow'. injection Hrow' as <- <-. eauto. }
  split; [exact Hts|]. split; [|split].
  - intros ->. unfold simulate_upto, initialize, target_weight_of in H.
    destruct ts as [|t0 ts']; [contradiction|]. discriminate.
  - unfold has_columns. apply Forall_lookup. intros i [date row] Hrow. simpl.
    apply Forall_forall. intros t Hin. now apply (Hstep i date row Hrow).
  - destruct (prices_df !! 1%nat) as [[date row]|] eqn:Hrow.
    + left. apply (Hstep 1%nat date row Hrow). lia.
    + right. now apply lookup_ge_None.
Qed.

End WellFormed.

(** X1: the simulation returns its results exactly when there is at least
    one ticker, the table has a first row, every row has a price for every
    ticker, and the period is nonzero or the table has a single row. *)
Theorem simulate_returns_iff {Timestamp : Type} (strftime : Timestamp → string)
    (ts : list string) (initial_equity rebalance_period : Z)
    (prices_df : list (Timestamp * gmap string Q)) :
  (∃ s, simulate strftime ts initial_equity rebalance_period prices_df = inr s)
  ↔ ts ≠ [] ∧ prices_df ≠ [] ∧ has_columns ts prices_df ∧
    (rebalance_period ≠ 0%Z ∨ (length prices_df ≤ 1)%nat).
Proof.
  split.
  - intros [s Hs]. exact (simulate_inr_wf strftime _ _ _ _ _ Hs).
  - intros (Hts & Hdf & Hcols & Hp). now apply simulate_upto_returns_wf.
Qed.

(** X2: the simulation raises nothing but a ZeroDivisionError (no ticker,
    or a zero period once the table has a second row), an IndexError (no
    row at all) or a KeyError naming a ticker for which some row has no
    price; its own dicts are never the cause of a KeyError. *)
Theorem simulate_raises_only {Timestamp : Type} (strftime : Timestamp → string)
    (ts : list string) (initial_equity rebalance_period : Z)
    (prices_df : list (Timestamp * gmap string Q)) (e : exception) :
  simulate strftime ts initial_equity rebalance_period prices_df = inl e →
  (e = ZeroDivisionError ∧
   (ts = [] ∨ rebalance_period = 0%Z ∧ (2 ≤ length prices_df)%nat)) ∨
  (e = IndexError ∧ ts ≠ [] ∧ prices_df = []) ∨
  (∃ t i date row,
     e = KeyError t ∧ t ∈ ts ∧ prices_df !! i = Some (date, row) ∧
     row !! t = None).
Proof. apply simulate_upto_inl. Qed.

Lemma simulate_raises_only_witness :
  simulate (λ d : string, d) ["A"; "C"] 1000000 2 scenario_prices
    = inl (KeyError "C") ∧
  ((KeyError "C" = ZeroDivisionError ∧
    (["A"; "C"] = [] ∨ 2%Z = 0%Z ∧ (2 ≤ length scenario_prices)%nat)) ∨
   (KeyError "C" = IndexError ∧ ["A"; "C"] ≠ [] ∧ scenario_prices = []) ∨
   (∃ t i date row,
      KeyError "C" = KeyError t ∧ t ∈ ["A"; "C"] ∧
      scenario_prices !! i = Some (date, row) ∧ row !! t = None)).
Proof.
  split; [vm_compute; reflexivity|].
  apply (simulate_raises_only (λ d : string, d) ["A"; "C"] 1000000 2
           scenario_prices (KeyError "C")).
  vm_compute. reflexivity.
Defined.

(** ** The curves, point by point *)

Lemma qsum_ext (f g : string → Q) (ts : list string) :
  (∀ t, t ∈ ts → (f t == g t)%Q) → (qsum f ts == qsum g ts)%Q.
Proof.
  induction ts as [|t ts IH]; intros Hfg; [reflexivity|].
  cbn [qsum foldr]. fold (qsum f ts). fold (qsum g ts).
  rewrite (Hfg t) by left. rewrite IH; [reflexivity|].
  intros t' Hin. apply Hfg. now right.
Qed.


Section Points.

Context {Timestamp : Type} (strftime : Timestamp → string).
Implicit Types prices_df : list (Timestamp * gmap string Q).

Lemma empty_curves_lookup ts t :
  empty_curves ts !! t = if decide (t ∈ ts) then Some [] else None.
Proof.
  unfold empty_curves. rewrite (foldl_insert_lookup (λ _, [])).
  case_decide; [reflexivity | apply lookup_empty].
Qed.

(** With distinct tickers the valuation loop appends one point to the curve
    of each ticker. *)
Lemma curves_from_lookup acc shares prices_df i ts t :
  NoDup ts →
  curves_from acc shares prices_df i ts !! t
  = if decide (t ∈ ts)
    then Some (default [] (acc !! t) ++ [value_of shares prices_df i t])
    else acc !! t.
Proof.
  intros Hnd. revert acc.
  induction Hnd as [|t0 ts Hnotin Hnd IH]; intros acc.
  - by_membership.
  - unfold curves_from in *. cbn [foldl]. rewrite IH.
    destruct (decide (t0 = t)) as [->|Hne].
    + rewrite lookup_insert_eq. by_membership.
    + rewrite lookup_insert_ne by exact Hne. by_membership.
Qed.

(** The [j]-th points of the curves of the rebalanced tracker come from the
    share counts held when iteration [j] starts. *)
Lemma reb_curves_explicit k ts initial_equity rebalance_period prices_df t :
  NoDup ts → (k ≤ length prices_df)%nat →
  equity_reb_curves
    (run_pure strftime k ts initial_equity rebalance_period prices_df) !! t
  = if decide (t ∈ ts)
    then Some ((λ j, value_of
                       (shares_reb (run_pure strftime j ts initial_equity
                                      rebalance_period prices_df))
                       prices_df j t) <$> seq 0 k)
    else None.
Proof.
  intros Hnd. induction k as [|k IH]; intros Hk.
  - rewrite run_pure_0. unfold init_pure. simpl. apply empty_curves_lookup.
  - destruct (lookup_lt_is_Some_2 prices_df k) as [[date row] Hrow]; [lia|].
    rewrite (run_pure_S _ _ _ _ _ _ _ _ Hrow). unfold day_pure.
    cbn [equity_reb_curves]. rewrite curves_from_lookup by exact Hnd.
    rewrite IH by lia. case_decide; [|reflexivity].
    rewrite seq_S, fmap_app. reflexivity.
Qed.

Lemma hold_curves_explicit k ts initial_equity rebalance_period prices_df t :
  NoDup ts → (k ≤ length prices_df)%nat →
  equity_hold_curves
    (run_pure strftime k ts initial_equity rebalance_period prices_df) !! t
  = if decide (t ∈ ts)
    then Some ((λ j, value_of (shares_hold (init_pure ts initial_equity prices_df))
                       prices_df j t) <$> seq 0 k)
    else None.
Proof.
  intros Hnd. induction k as [|k IH]; intros Hk.
  - rewrite run_pure_0. unfold init_pure. simpl. apply empty_curves_lookup.
  - destruct (lookup_lt_is_Some_2 prices_df k) as [[date row] Hrow]; [lia|].
    rewrite (run_pure_S _ _ _ _ _ _ _ _ Hrow). unfold day_pure.
    cbn [equity_hold_curves]. rewrite curves_from_lookup by exact Hnd.
    rewrite IH by lia. rewrite shares_hold_frame.
    case_decide; [|reflexivity].
    rewrite seq_S, fmap_app. reflexivity.
Qed.

Lemma portfolio_reb_explicit k ts initial_equity rebalance_period prices_df :
  (k ≤ length prices_df)%nat →
  portfolio_reb_curve
    (run_pure strftime k ts initial_equity rebalance_period prices_df)
  = (λ j, total_from 0
            (shares_reb (run_pure strftime j ts initial_equity rebalance_period
                           prices_df))
            prices_df j ts) <$> seq 0 k.
Proof.
  induction k as [|k IH]; intros Hk; [reflexivity|].
  destruct (lookup_lt_is_Some_2 prices_df k) as [[date row] Hrow]; [lia|].
  rewrite (run_pure_S _ _ _ _ _ _ _ _ Hrow). unfold day_pure.
  cbn [portfolio_reb_curve]. rewrite IH by lia.
  rewrite seq_S, fmap_app. reflexivity.
Qed.

Lemma portfolio_hold_explicit k ts initial_equity rebalance_period prices_df :
  (k ≤ length prices_df)%nat →
  portfolio_hold_curve
    (run_pure strftime k ts initial_equity rebalance_period prices_df)
  = (λ j, total_from 0 (shares_hold (init_pure ts initial_equity prices_df))
            prices_df j ts) <$> seq 0 k.
Proof.
  induction k as [|k IH]; intros Hk; [reflexivity|].
  destruct (lookup_lt_is_Some_2 prices_df k) as [[date row] Hrow]; [lia|].
  rewrite (run_pure_S _ _ _ _ _ _ _ _ Hrow). unfold day_pure.
  cbn [portfolio_hold_curve]. rewrite IH by lia. rewrite shares_hold_frame.
  rewrite seq_S, fmap_app. reflexivity.
Qed.

End Points.

Section PointLookups.

Context {Timestamp : Type} (strftime : Timestamp → string).
Implicit Types prices_df : list (Timestamp * gmap string Q).

Lemma reb_curve_at i k ts initial_equity rebalance_period prices_df t :
  NoDup ts → (k ≤ length prices_df)%nat → (i < k)%nat → t ∈ ts →
  curve_at (equity_reb_curves
              (run_pure strftime k ts initial_equity rebalance_period prices_df))
    t i
  = Some (value_of
            (shares_reb (run_pure strftime i ts initial_equity rebalance_period
                           prices_df))
            prices_df i t).
Proof.
  intros Hnd Hk Hi Hin. unfold curve_at.
  rewrite (reb_curves_explicit strftime) by assumption.
  rewrite decide_True by exact Hin.
  rewrite list_lookup_fmap, lookup_seq_lt by exact Hi. reflexivity.
Qed.

Lemma hold_curve_at i k ts initial_equity rebalance_period prices_df t :
  NoDup ts → (k ≤ length prices_df)%nat → (i < k)%nat → t ∈ ts →
  curve_at (equity_hold_curves
              (run_pure strftime k ts initial_equity rebalance_period prices_df))
    t i
  = Some (value_of (shares_hold (init_pure ts initial_equity prices_df))
            prices_df i t).
Proof.
  intros Hnd Hk Hi Hin. unfold curve_at.
  rewrite (hold_curves_explicit strftime) by assumption.
  rewrite decide_True by exact Hin.
  rewrite list_lookup_fmap, lookup_seq_lt by exact Hi. reflexivity.
Qed.

Lemma curve_at_outside k ts initial_equity rebalance_period prices_df t i :
  NoDup ts → (k ≤ length prices_df)%nat → t ∉ ts →
  curve_at (equity_reb_curves
              (run_pure strftime k ts initial_equity rebalance_period prices_df))
    t i = None ∧
  curve_at (equity_hold_curves
              (run_pure strftime k ts initial_equity rebalance_period prices_df))
    t i = None.
Proof.
  intros Hnd Hk Hout. unfold curve_at.
  rewrite (reb_curves_explicit strftime), (hold_curves_explicit strftime)
    by assumption.
  rewrite !decide_False by exact Hout. auto.
Qed.

Lemma portfolio_reb_at i k ts initial_equity rebalance_period prices_df :
  (k ≤ length prices_df)%nat → (i < k)%nat →
  portfolio_reb_curve
    (run_pure strftime k ts initial_equity rebalance_period prices_df) !! i
  = Some (total_from 0
            (shares_reb (run_pure strftime i ts initial_equity rebalance_period
                           prices_df))
            prices_df i ts).
Proof.
  intros Hk Hi. rewrite (portfolio_reb_explicit strftime) by exact Hk.
  rewrite list_lookup_fmap, lookup_seq_lt by exact Hi. reflexivity.
Qed.

Lemma portfolio_hold_at i k ts initial_equity rebalance_period prices_df :
  (k ≤ length prices_df)%nat → (i < k)%nat →
  portfolio_hold_curve
    (run_pure strftime k ts initial_equity rebalance_period prices_df) !! i
  = Some (total_from 0 (shares_hold (init_pure ts initial_equity prices_df))
            prices_df i ts).
Proof.
  intros Hk Hi. rewrite (portfolio_hold_explicit strftime) by exact Hk.
  rewrite list_lookup_fmap, lookup_seq_lt by exact Hi. reflexivity.
Qed.

(** Until the first index at which a rebalance is due, the rebalanced
    tracker holds the share counts of the initial allocation. *)
Lemma shares_reb_until_first i ts initial_equity rebalance_period prices_df :
  (0 < rebalance_period)%Z → (Z.of_nat i <= rebalance_period)%Z →
  shares_reb (run_pure strftime i ts initial_equity rebalance_period prices_df)
  = shares_hold (init_pure ts initial_equity prices_df).
Proof.
  intros Hp. induction i as [|i IH]; intros Hi; [reflexivity|].
  destruct (prices_df !! i) as [[date row]|] eqn:Hrow.
  - rewrite (run_pure_S _ _ _ _ _ _ _ _ Hrow). unfold day_pure.
    assert (Hdue : rebalance_due i rebalance_period = false).
    { apply rebalance_due_false. intros [Hpos Hmod].
      rewrite Z.mod_small in Hmod by lia. lia. }
    rewrite Hdue. cbn [shares_reb]. apply IH. lia.
  - apply lookup_ge_None in Hrow.
    rewrite run_pure_ge by lia. rewrite <- (run_pure_ge _ i) by lia.
    apply IH. lia.
Qed.


End PointLookups.

(** X3: with distinct tickers, every curve that the simulation returns has
    exactly one point per date of the table (both portfolio curves, and the
    curve of each ticker for both policies), and there is no curve for
    anything but a ticker. *)
Theorem one_point_per_date {Timestamp : Type} (strftime : Timestamp → string)
    (ts : list string) (initial_equity rebalance_period : Z)
    (prices_df : list (Timestamp * gmap string Q)) (s : state) :
  simulate strftime ts initial_equity rebalance_period prices_df = inr s →
  NoDup ts →
  length (portfolio_reb_curve s) = length prices_df ∧
  length (portfolio_hold_curve s) = length prices_df ∧
  ∀ t,
    (t ∈ ts →
     ∃ lr lh,
       equity_reb_curves s !! t = Some lr ∧ equity_hold_curves s !! t = Some lh ∧
       length lr = length prices_df ∧ length lh = length prices_df) ∧
    (t ∉ ts → equity_reb_curves s !! t = None ∧ equity_hold_curves s !! t = None).
Proof.
  unfold simulate. intros [_ ->]%simulate_upto_pure Hnd.
  rewrite (portfolio_reb_explicit strftime), (portfolio_hold_explicit strftime)
    by reflexivity.
  rewrite !length_fmap, !length_seq.
  split; [reflexivity|]. split; [reflexivity|].
  intros t.
  rewrite (reb_curves_explicit strftime), (hold_curves_explicit strftime)
    by (assumption || reflexivity).
  split; intros Hin.
  - rewrite !decide_True by exact Hin. eexists _, _.
    split; [reflexivity|]. split; [reflexivity|].
    rewrite !length_fmap, !length_seq. auto.
  - rewrite !decide_False by exact Hin. auto.
Qed.

(** X4: with distinct tickers, at every date index the value recorded in a
    portfolio curve is the sum over the tickers of the values recorded in
    their curves, for the rebalanced tracker and for buy-and-hold. *)
Theorem portfolio_is_sum_of_assets {Timestamp : Type}
    (strftime : Timestamp → string) (ts : list string)
    (initial_equity rebalance_period : Z)
    (prices_df : list (Timestamp * gmap string Q)) (s : state) (i : nat) :
  simulate strftime ts initial_equity rebalance_period prices_df = inr s →
  NoDup ts → (i < length prices_df)%nat →
  ∃ total_r sum_r total_h sum_h,
    portfolio_reb_curve s !! i = Some total_r ∧
    sum_over (λ t, curve_at (equity_reb_curves s) t i) ts = Some sum_r ∧
    (sum_r == total_r)%Q ∧
    portfolio_hold_curve s !! i = Some total_h ∧
    sum_over (λ t, curve_at (equity_hold_curves s) t i) ts = Some sum_h ∧
    (sum_h == total_h)%Q.
Proof.
  unfold simulate. intros [_ ->]%simulate_upto_pure Hnd Hi.
  set (sr := shares_reb (run_pure strftime i ts initial_equity rebalance_period
                           prices_df)).
  set (sh := shares_hold (init_pure ts initial_equity prices_df)).
  exists (total_from 0 sr prices_df i ts), (qsum (value_of sr prices_df i) ts),
    (total_from 0 sh prices_df i ts), (qsum (value_of sh prices_df i) ts).
  split; [now apply (portfolio_reb_at strftime)|].
  split; [apply sum_over_known; intros t Hin;
          now apply (reb_curve_at strftime)|].
  split; [rewrite total_from_qsum; ring|].
  split; [now apply (portfolio_hold_at strftime)|].
  split; [apply sum_over_known; intros t Hin;
          now apply (hold_curve_at strftime)|].
  rewrite total_from_qsum. ring.
Qed.

Lemma scenario_tickers_distinct : NoDup scenario_tickers.
Proof.
  unfold scenario_tickers.
  repeat (constructor;
          [rewrite ?elem_of_cons, ?elem_of_nil; intuition discriminate|]).
  constructor.
Qed.

Lemma one_point_per_date_witness :
  scenario 3 = inr (scenario_state 3) ∧
  length (portfolio_reb_curve (scenario_state 3)) = length scenario_prices ∧
  length (portfolio_hold_curve (scenario_state 3)) = length scenario_prices ∧
  ∀ t,
    (t ∈ scenario_tickers →
     ∃ lr lh,
       equity_reb_curves (scenario_state 3) !! t = Some lr ∧
       equity_hold_curves (scenario_state 3) !! t = Some lh ∧
       length lr = length scenario_prices ∧ length lh = length scenario_prices) ∧
    (t ∉ scenario_tickers →
     equity_reb_curves (scenario_state 3) !! t = None ∧
     equity_hold_curves (scenario_state 3) !! t = None).
Proof.
  split; [vm_compute; reflexivity|].
  apply (one_point_per_date (λ d : string, d) scenario_tickers 1000000 2
           scenario_prices).
  - vm_compute. reflexivity.
  - exact scenario_tickers_distinct.
Defined.

Lemma portfolio_is_sum_of_assets_witness :
  scenario 3 = inr (scenario_state 3) ∧
  ∃ total_r sum_r total_h sum_h,
    portfolio_reb_curve (scenario_state 3) !! 2%nat = Some total_r ∧
    sum_over (λ t, curve_at (equity_reb_curves (scenario_state 3)) t 2)
      scenario_tickers = Some sum_r ∧
    (sum_r == total_r)%Q ∧
    portfolio_hold_curve (scenario_state 3) !! 2%nat = Some total_h ∧
    sum_over (λ t, curve_at (equity_hold_curves (scenario_state 3)) t 2)
      scenario_tickers = Some sum_h ∧
    (sum_h == total_h)%Q.
Proof.
  split; [vm_compute; reflexivity|].
  apply (portfolio_is_sum_of_assets (λ d : string, d) scenario_tickers
           1000000 2 scenario_prices).
  - vm_compute. reflexivity.
  - exact scenario_tickers_distinct.
  - simpl. lia.
Defined.




(** X6: with a positive period and distinct tickers, the curves of the
    rebalanced tracker and of buy-and-hold coincide at every date index up
    to and including index rebalance_period: the first rebalance changes
    values only from the next date on. *)
Theorem curves_agree_until_first_rebalance {Timestamp : Type}
    (strftime : Timestamp → string) (ts : list string)
    (initial_equity rebalance_period : Z)
    (prices_df : list (Timestamp * gmap string Q)) (s : state) (i : nat) :
  simulate strftime ts initial_equity rebalance_period prices_df = inr s →
  NoDup ts → (0 < rebalance_period)%Z →
  (i < length prices_df)%nat → (Z.of_nat i <= rebalance_period)%Z →
  portfolio_reb_curve s !! i = portfolio_hold_curve s !! i ∧
  ∀ t, curve_at (equity_reb_curves s) t i = curve_at (equity_hold_curves s) t i.
Proof.
  unfold simulate. intros [_ ->]%simulate_upto_pure Hnd Hp Hi Hle.
  pose proof (shares_reb_until_first strftime i ts initial_equity
                rebalance_period prices_df Hp Hle) as Hshares.
  split.
  - rewrite (portfolio_reb_at strftime), (portfolio_hold_at strftime) by lia.
    now rewrite Hshares.
  - intros t. destruct (decide (t ∈ ts)) as [Hin|Hout].
    + rewrite (reb_curve_at strftime), (hold_curve_at strftime) by (auto; lia).
      now rewrite Hshares.
    + destruct (curve_at_outside strftime (length prices_df) ts initial_equity
                  rebalance_period prices_df t i Hnd (Nat.le_refl _) Hout)
        as [-> ->].
      reflexivity.
Qed.

Lemma curves_agree_until_first_rebalance_witness :
  scenario 3 = inr (scenario_state 3) ∧
  portfolio_reb_curve (scenario_state 3) !! 2%nat
  = portfolio_hold_curve (scenario_state 3) !! 2%nat ∧
  ∀ t, curve_at (equity_reb_curves (scenario_state 3)) t 2
       = curve_at (equity_hold_curves (scenario_state 3)) t 2.
Proof.
  split; [vm_compute; reflexivity|].
  apply (curves_agree_until_first_rebalance (λ d : string, d) scenario_tickers
           1000000 2 scenario_prices).
  - vm_compute. reflexivity.
  - exact scenario_tickers_distinct.
  - lia.
  - simpl. lia.
  - simpl. lia.
Defined.




(** ** The number of rebalances *)

Lemma minus_one_div (p : Z) : (0 < p)%Z → (-1 / p = -1)%Z.
Proof.
  intros Hp. symmetry. apply (Z.div_unique_pos (-1) p (-1) (p - 1)); lia.
Qed.

Lemma cadence_step (k p : Z) :
  (0 < p)%Z → (0 <= k)%Z →
  Z.to_nat (k / p)
  = (Z.to_nat ((k - 1) / p)
     + (if (0 <? k)%Z && (k mod p =? 0)%Z then 1 else 0))%nat.
Proof.
  intros Hp Hk.
  pose proof (Z.div_mod k p ltac:(lia)) as Hdm.
  pose proof (Z.mod_pos_bound k p Hp) as Hmod.
  destruct (Z.ltb_spec 0 k) as [Hpos|Hzero]; simpl.
  - destruct (Z.eqb_spec (k mod p) 0) as [Hz|Hnz].
    + assert (Hq : ((k - 1) / p = k / p - 1)%Z).
      { symmetry. apply (Z.div_unique_pos (k - 1) p (k / p - 1) (p - 1)); lia. }
      assert (1 <= k / p)%Z by nia.
      rewrite Hq. lia.
    + assert (Hq : ((k - 1) / p = k / p)%Z).
      { symmetry. apply (Z.div_unique_pos (k - 1) p (k / p) (k mod p - 1)); lia. }
      rewrite Hq. lia.
  - assert (k = 0)%Z as -> by lia.
    rewrite Z.div_0_l by lia. change (0 - 1)%Z with (-1)%Z.
    rewrite (minus_one_div p Hp). reflexivity.
Qed.

Section Count.

Context {Timestamp : Type} (strftime : Timestamp → string).
Implicit Types prices_df : list (Timestamp * gmap string Q).

Lemma rebalance_log_length k ts initial_equity rebalance_period prices_df :
  (0 < rebalance_period)%Z → (k ≤ length prices_df)%nat →
  length (rebalance_log
            (run_pure strftime k ts initial_equity rebalance_period prices_df))
  = Z.to_nat ((Z.of_nat k - 1) / rebalance_period).
Proof.
  intros Hp. induction k as [|k IH]; intros Hk.
  - rewrite run_pure_0. unfold init_pure. cbn [rebalance_log length].
    change (Z.of_nat 0 - 1)%Z with (-1)%Z.
    rewrite (minus_one_div rebalance_period Hp). reflexivity.
  - destruct (lookup_lt_is_Some_2 prices_df k) as [[date row] Hrow]; [lia|].
    rewrite (run_pure_S _ _ _ _ _ _ _ _ Hrow).
    replace (Z.of_nat (S k) - 1)%Z with (Z.of_nat k) by lia.
    rewrite (cadence_step (Z.of_nat k) rebalance_period Hp) by lia.
    rewrite <- IH by lia. unfold day_pure. cbn [rebalance_log].
    fold (rebalance_due k rebalance_period).
    destruct (rebalance_due k rebalance_period).
    + rewrite length_app. reflexivity.
    + lia.
Qed.

End Count.

(** X8: with a positive period, the log that the simulation returns has
    exactly floor((len - 1) / rebalance_period) rows, len being the number of
    dates. *)
Theorem rebalance_count {Timestamp : Type} (strftime : Timestamp → string)
    (ts : list string) (initial_equity rebalance_period : Z)
    (prices_df : list (Timestamp * gmap string Q)) (s : state) :
  simulate strftime ts initial_equity rebalance_period prices_df = inr s →
  (0 < rebalance_period)%Z →
  length (rebalance_log s)
  = Z.to_nat ((Z.of_nat (length prices_df) - 1) / rebalance_period).
Proof.
  unfold simulate. intros [_ ->]%simulate_upto_pure Hp.
  now apply rebalance_log_length.
Qed.

Lemma rebalance_count_witness :
  scenario 3 = inr (scenario_state 3) ∧
  length (rebalance_log (scenario_state 3))
  = Z.to_nat ((Z.of_nat (length scenario_prices) - 1) / 2).
Proof.
  split; [vm_compute; reflexivity|].
  apply (rebalance_count (λ d : string, d) scenario_tickers 1000000 2
           scenario_prices).
  - vm_compute. reflexivity.
  - lia.
Defined.

(** ** The tables and the summaries *)

Lemma iloc_first_inr (series : list Q) (x : Q) :
  iloc_first series = inr x → first_of series = x.
Proof. destruct series; [discriminate|]. intros H. now injection H as <-. Qed.

Lemma iloc_last_inr (series : list Q) (x : Q) :
  iloc_last series = inr x → last_of series = x.
Proof.
  unfold iloc_last, last_of. destruct (last series); [|discriminate].
  intros H. now injection H as <-.
Qed.

Lemma iloc_first_returns (series : list Q) :
  series ≠ [] → iloc_first series = inr (first_of series).
Proof. destruct series; [contradiction | reflexivity]. Qed.

Lemma iloc_last_returns (series : list Q) :
  series ≠ [] → iloc_last series = inr (last_of series).
Proof.
  intros Hne. unfold iloc_last, last_of.
  destruct (last series) eqn:Hlast; [reflexivity|].
  apply last_None in Hlast. contradiction.
Qed.

Lemma make_frame_inr (curves df : gmap string (list Q)) (n : nat) :
  make_frame curves n = inr df ↔
  df = curves ∧ map_Forall (λ _ l, length l = n) curves.
Proof.
  unfold make_frame. case_bool_decide as Hall; split.
  - intros H. injection H as <-. auto.
  - intros [-> _]. reflexivity.
  - discriminate.
  - intros [_ H]. contradiction.
Qed.

Lemma set_column_inr (base df : gmap string (list Q)) (name : string)
    (col : list Q) (n : nat) :
  set_column base name col n = inr df ↔
  df = <[name := col]> base ∧ length col = n.
Proof.
  unfold set_column. destruct (Nat.eqb_spec (length col) n); split.
  - intros H. injection H as <-. auto.
  - intros [-> _]. reflexivity.
  - discriminate.
  - intros [_ H]. contradiction.
Qed.

Section Summaries.

Context {Timestamp : Type}.
Implicit Types prices_df : list (Timestamp * gmap string Q).

Lemma column_from_inr prices_df t acc c :
  for_each (λ col (dr : Timestamp * gmap string Q),
              let* p := getitem dr.2 t in ret (col ++ [p])) prices_df acc
    = inr c →
  c = acc ++ column_pure prices_df t.
Proof.
  revert acc. induction prices_df as [|dr rest IH]; intros acc H; simpl in H.
  - injection H as <-. unfold column_pure. simpl. now rewrite app_nil_r.
  - inv_bind H. inv_bind Ha. injection Ha as <-.
    apply getitem_inr in Ha0. apply IH in H as ->.
    unfold column_pure. simpl. rewrite Ha0. simpl.
    now rewrite <- app_assoc.
Qed.

Lemma column_inr prices_df t c :
  column prices_df t = inr c → c = column_pure prices_df t.
Proof. unfold column. intros H. now apply column_from_inr in H. Qed.

Lemma column_from_returns prices_df t acc :
  Forall (λ dr : Timestamp * gmap string Q, is_Some (dr.2 !! t)) prices_df →
  for_each (λ col (dr : Timestamp * gmap string Q),
              let* p := getitem dr.2 t in ret (col ++ [p])) prices_df acc
  = inr (acc ++ column_pure prices_df t).
Proof.
  revert acc. induction prices_df as [|dr rest IH]; intros acc Hall; simpl.
  - unfold column_pure. simpl. now rewrite app_nil_r.
  - apply Forall_cons in Hall as [[p Hp] Hall].
    rewrite (proj2 (getitem_inr _ _ _) Hp). simpl. rewrite IH by exact Hall.
    unfold column_pure. simpl. rewrite Hp. simpl. now rewrite <- app_assoc.
Qed.

Lemma column_returns ts prices_df t :
  has_columns ts prices_df → t ∈ ts →
  column prices_df t = inr (column_pure prices_df t).
Proof.
  intros Hcols Hin. unfold column. rewrite column_from_returns; [reflexivity|].
  unfold has_columns in Hcols. eapply Forall_impl; [exact Hcols|].
  intros dr Hdr. simpl in Hdr. rewrite Forall_forall in Hdr. now apply Hdr.
Qed.

Lemma summary_body_pure prices_df equity_df initial_equity w rows t rows' :
  summary_body prices_df equity_df initial_equity w rows t = inr rows' →
  rows' = rows ++ [summary_row_pure prices_df equity_df initial_equity w t].
Proof.
  unfold summary_body. intros H.
  inv_bind H. inv_bind H. inv_bind H. inv_bind H. inv_bind H. inv_bind H.
  injection H as <-.
  apply column_inr in Ha, Ha1. subst.
  apply iloc_first_inr in Ha0. apply iloc_last_inr in Ha2, Ha4.
  apply getitem_inr in Ha3.
  unfold summary_row_pure. rewrite Ha3. simpl. now subst.
Qed.

Lemma summary_loop_pure prices_df equity_df initial_equity w ts rows rows' :
  for_each (summary_body prices_df equity_df initial_equity w) ts rows
    = inr rows' →
  rows' = rows
          ++ (summary_row_pure prices_df equity_df initial_equity w <$> ts).
Proof.
  revert rows. induction ts as [|t ts IH]; intros rows H; simpl in H.
  - injection H as <-. simpl. now rewrite app_nil_r.
  - inv_bind H. apply summary_body_pure in Ha as ->. apply IH in H as ->.
    simpl. now rewrite <- app_assoc.
Qed.

Lemma summary_pure_eq label prices_df equity_df initial_equity w ts rows :
  summary label prices_df equity_df initial_equity w ts = inr rows →
  rows = summary_pure label prices_df equity_df initial_equity w ts.
Proof.
  unfold summary. intros H.
  inv_bind H. inv_bind H. inv_bind H. inv_bind H. inv_bind H.
  injection H as <-. apply summary_loop_pure in Ha as ->. simpl.
  apply getitem_inr in Ha0, Ha2. apply iloc_last_inr in Ha1, Ha3.
  unfold summary_pure, portfolio_row_pure. rewrite Ha0. simpl.
  rewrite Ha0 in Ha2. injection Ha2 as <-. now subst.
Qed.

Lemma summary_returns label ts prices_df equity_df initial_equity w :
  has_columns ts prices_df → prices_df ≠ [] →
  (∀ t, t ∈ ts → ∃ l, equity_df !! t = Some l ∧ l ≠ []) →
  (∃ l, equity_df !! "Portfolio" = Some l ∧ l ≠ []) →
  ∃ rows, summary label prices_df equity_df initial_equity w ts = inr rows.
Proof.
  intros Hcols Hdf Heq (lp & Hlp & Hlpne). unfold summary.
  edestruct (for_each_returns (λ _, True)
               (summary_body prices_df equity_df initial_equity w) ts [])
    as (rows & Hrows & _); [exact I | |].
  - intros rows t Hin _. unfold summary_body.
    rewrite (column_returns ts) by assumption. simpl.
    assert (Hcne : column_pure prices_df t ≠ []).
    { unfold column_pure. destruct prices_df; [contradiction | discriminate]. }
    rewrite iloc_first_returns, iloc_last_returns by exact Hcne. simpl.
    destruct (Heq t Hin) as (l & Hl & Hlne).
    rewrite (proj2 (getitem_inr _ _ _) Hl). simpl.
    rewrite iloc_last_returns by exact Hlne. simpl. eauto.
  - rewrite Hrows. simpl. rewrite (proj2 (getitem_inr _ _ _) Hlp). simpl.
    rewrite iloc_last_returns by exact Hlpne. simpl. eauto.
Qed.

End Summaries.

Section Reports.

Context {Timestamp : Type} (strftime : Timestamp → string).
Implicit Types prices_df : list (Timestamp * gmap string Q).

(** What a report that is returned is made of. *)
Lemma report_inr ts initial_equity rebalance_period prices_df rep :
  report strftime ts initial_equity rebalance_period prices_df = inr rep →
  simulate strftime ts initial_equity rebalance_period prices_df
    = inr (final_state rep) ∧
  equity_reb_df rep
  = <["Portfolio" := portfolio_reb_curve (final_state rep)]>
      (equity_reb_curves (final_state rep)) ∧
  equity_hold_df rep
  = <["Portfolio" := portfolio_hold_curve (final_state rep)]>
      (equity_hold_curves (final_state rep)) ∧
  history rep = history_section (rebalance_log (final_state rep)) ∧
  summary_reb rep
  = summary_pure "PORTFOLIO (Rebalanced)" prices_df (equity_reb_df rep)
      initial_equity (1 / n_assets_of ts) ts ∧
  summary_hold rep
  = summary_pure "PORTFOLIO (Buy & Hold)" prices_df (equity_hold_df rep)
      initial_equity (1 / n_assets_of ts) ts.
Proof.
  unfold report. intros H.
  inv_bind H. inv_bind H. inv_bind H. inv_bind H. inv_bind H. inv_bind H.
  inv_bind H. inv_bind H. injection H as <-. simpl.
  unfold target_weight_of in Ha.
  destruct (length ts =? 0)%nat; [discriminate|]. injection Ha as <-.
  apply make_frame_inr in Ha1 as [-> _]. apply set_column_inr in Ha2 as [-> _].
  apply make_frame_inr in Ha3 as [-> _]. apply set_column_inr in Ha4 as [-> _].
  apply summary_pure_eq in Ha5, Ha6. unfold n_assets_of. repeat split; assumption.
Qed.

Lemma frame_lookup_nonempty (curves : gmap string (list Q)) (portfolio : list Q)
    (n : nat) (t : string) :
  (0 < n)%nat → length portfolio = n →
  (∃ l, curves !! t = Some l ∧ length l = n) ∨ t = "Portfolio" →
  ∃ l, <["Portfolio" := portfolio]> curves !! t = Some l ∧ l ≠ [].
Proof.
  intros Hn Hp Ht. destruct (decide ("Portfolio" = t)) as [<-|Hne].
  - exists portfolio. rewrite lookup_insert_eq. split; [reflexivity|].
    intros ->. simpl in Hp. lia.
  - destruct Ht as [(l & Hl & Hlen)|Ht]; [|congruence].
    exists l. rewrite lookup_insert_ne by exact Hne. split; [exact Hl|].
    intros ->. simpl in Hlen. lia.
Qed.

Lemma report_returns ts initial_equity rebalance_period prices_df s :
  simulate strftime ts initial_equity rebalance_period prices_df = inr s →
  NoDup ts →
  ∃ rep, report strftime ts initial_equity rebalance_period prices_df = inr rep.
Proof.
  intros Hs Hnd.
  pose proof (simulate_inr_wf strftime _ _ _ _ _ Hs) as (Hts & Hdf & Hcols & _).
  assert (Hlen : (0 < length prices_df)%nat)
    by (destruct prices_df; [contradiction | simpl; lia]).
  unfold report, target_weight_of.
  destruct (Nat.eqb_spec (length ts) 0) as [Hz|_];
    [destruct ts; [contradiction | discriminate]|].
  cbn [bind ret]. rewrite Hs. cbn [bind].
  unfold simulate in Hs. apply simulate_upto_pure in Hs as [_ ->].
  set (s := run_pure strftime (length prices_df) ts initial_equity
              rebalance_period prices_df).
  assert (Hreb : map_Forall (λ _ l, length l = length prices_df)
                   (equity_reb_curves s)).
  { intros t l. unfold s.
    rewrite (reb_curves_explicit strftime) by (assumption || reflexivity).
    case_decide; [|discriminate]. intros Hl. injection Hl as <-.
    now rewrite length_fmap, length_seq. }
  assert (Hhold : map_Forall (λ _ l, length l = length prices_df)
                    (equity_hold_curves s)).
  { intros t l. unfold s.
    rewrite (hold_curves_explicit strftime) by (assumption || reflexivity).
    case_decide; [|discriminate]. intros Hl. injection Hl as <-.
    now rewrite length_fmap, length_seq. }
  assert (Hpr : length (portfolio_reb_curve s) = length prices_df).
  { unfold s. rewrite (portfolio_reb_explicit strftime) by reflexivity.
    now rewrite length_fmap, length_seq. }
  assert (Hph : length (portfolio_hold_curve s) = length prices_df).
  { unfold s. rewrite (portfolio_hold_explicit strftime) by reflexivity.
    now rewrite length_fmap, length_seq. }
  rewrite (proj2 (make_frame_inr _ _ _) (conj eq_refl Hreb)). cbn [bind].
  rewrite (proj2 (set_column_inr _ _ _ _ _) (conj eq_refl Hpr)). cbn [bind].
  rewrite (proj2 (make_frame_inr _ _ _) (conj eq_refl Hhold)). cbn [bind].
  rewrite (proj2 (set_column_inr _ _ _ _ _) (conj eq_refl Hph)). cbn [bind].
  edestruct (summary_returns "PORTFOLIO (Rebalanced)" ts prices_df
               (<["Portfolio" := portfolio_reb_curve s]> (equity_reb_curves s))
               initial_equity (1 / inject_Z (Z.of_nat (length ts))))
    as [rows_reb ->]; auto.
  { intros t Hin. apply (frame_lookup_nonempty _ _ (length prices_df)); auto.
    left. unfold s.
    rewrite (reb_curves_explicit strftime) by (assumption || reflexivity).
    rewrite decide_True by exact Hin. eexists. split; [reflexivity|].
    now rewrite length_fmap, length_seq. }
  { apply (frame_lookup_nonempty _ _ (length prices_df)); auto. }
  cbn [bind].
  edestruct (summary_returns "PORTFOLIO (Buy & Hold)" ts prices_df
               (<["Portfolio" := portfolio_hold_curve s]> (equity_hold_curves s))
               initial_equity (1 / inject_Z (Z.of_nat (length ts))))
    as [rows_hold ->]; auto.
  { intros t Hin. apply (frame_lookup_nonempty _ _ (length prices_df)); auto.
    left. unfold s.
    rewrite (hold_curves_explicit strftime) by (assumption || reflexivity).
    rewrite decide_True by exact Hin. eexists. split; [reflexivity|].
    now rewrite length_fmap, length_seq. }
  { apply (frame_lookup_nonempty _ _ (length prices_df)); auto. }
  cbn [bind]. eauto.
Qed.

End Reports.

Lemma scenario_report_returns : ∃ rep, scenario_report = inr rep.
Proof.
  apply (report_returns (λ d : string, d) scenario_tickers 1000000 2
           scenario_prices (scenario_state 3)).
  - vm_compute. reflexivity.
  - exact scenario_tickers_distinct.
Qed.

(** X9: the equity tables and the two summaries add no failure of their
    own: with distinct tickers, the report is produced exactly when the
    simulation returns. *)
Theorem report_returns_iff {Timestamp : Type} (strftime : Timestamp → string)
    (ts : list string) (initial_equity rebalance_period : Z)
    (prices_df : list (Timestamp * gmap string Q)) :
  NoDup ts →
  (∃ rep, report strftime ts initial_equity rebalance_period prices_df = inr rep)
  ↔ (∃ s, simulate strftime ts initial_equity rebalance_period prices_df = inr s).
Proof.
  intros Hnd. split.
  - intros [rep Hrep]. exists (final_state rep).
    now apply (report_inr strftime) in Hrep.
  - intros [s Hs]. now apply (report_returns strftime _ _ _ _ s).
Qed.

Lemma report_returns_iff_witness :
  (∃ rep, scenario_report = inr rep)
  ↔ (∃ s, simulate (λ d : string, d) scenario_tickers 1000000 2 scenario_prices
          = inr s).
Proof.
  apply (report_returns_iff (λ d : string, d) scenario_tickers 1000000 2
           scenario_prices).
  exact scenario_tickers_distinct.
Defined.

(** X10: with a positive period, the history section shows the message
    "No rebalancing events occurred." exactly when rebalance_period is
    greater than len - 1, and the table of the log otherwise. *)
Theorem history_message_iff {Timestamp : Type} (strftime : Timestamp → string)
    (ts : list string) (initial_equity rebalance_period : Z)
    (prices_df : list (Timestamp * gmap string Q)) (rep : report_data) :
  report strftime ts initial_equity rebalance_period prices_df = inr rep →
  (0 < rebalance_period)%Z →
  (history rep = HistoryInfo "No rebalancing events occurred."
   ↔ (Z.of_nat (length prices_df) - 1 < rebalance_period)%Z) ∧
  (history rep = HistoryTable (rebalance_log (final_state rep))
   ↔ (rebalance_period <= Z.of_nat (length prices_df) - 1)%Z).
Proof.
  intros Hrep Hp.
  apply (report_inr strftime) in Hrep as (Hs & _ & _ & -> & _).
  pose proof (simulate_inr_wf strftime _ _ _ _ _ Hs) as (_ & Hdf & _ & _).
  unfold simulate in Hs. apply simulate_upto_pure in Hs as [_ Hs].
  pose proof (rebalance_log_length strftime (length prices_df) ts initial_equity
                rebalance_period prices_df Hp (Nat.le_refl _)) as Hlen.
  rewrite <- Hs in Hlen.
  assert (Hpos : (0 <= Z.of_nat (length prices_df) - 1)%Z)
    by (destruct prices_df; [contradiction | simpl length; lia]).
  pose proof (Z.div_pos _ _ Hpos Hp) as Hq.
  pose proof (Z.div_small_iff (Z.of_nat (length prices_df) - 1)
                rebalance_period ltac:(lia)) as Hsmall.
  destruct (rebalance_log (final_state rep)) as [|row rows]; simpl in *.
  - assert (Hzero : ((Z.of_nat (length prices_df) - 1) / rebalance_period = 0)%Z)
      by lia.
    apply Hsmall in Hzero.
    split; split; intros H; try reflexivity; try discriminate; lia.
  - assert (Hnz : ((Z.of_nat (length prices_df) - 1) / rebalance_period ≠ 0)%Z)
      by lia.
    split; split; intros H; try reflexivity; try discriminate.
    + exfalso. apply Hnz, Hsmall. lia.
    + destruct (Z.lt_ge_cases (Z.of_nat (length prices_df) - 1) rebalance_period)
        as [Hlt|Hge]; [|lia].
      exfalso. apply Hnz, Hsmall. lia.
Qed.

Lemma history_message_iff_witness :
  ∃ rep,
    scenario_report = inr rep ∧
    (history rep = HistoryInfo "No rebalancing events occurred."
     ↔ (Z.of_nat (length scenario_prices) - 1 < 2)%Z) ∧
    (history rep = HistoryTable (rebalance_log (final_state rep))
     ↔ (2 <= Z.of_nat (length scenario_prices) - 1)%Z).
Proof.
  destruct scenario_report_returns as [rep Hrep].
  exists rep. split; [exact Hrep|].
  apply (history_message_iff (λ d : string, d) scenario_tickers 1000000 2
           scenario_prices rep); [exact Hrep | lia].
Defined.

(** ** What the summaries show *)

Lemma last_of_fmap_seq (g : nat → Q) (n : nat) :
  (0 < n)%nat → last_of (g <$> seq 0 n) = g (n - 1)%nat.
Proof.
  intros Hn. destruct n as [|n]; [lia|].
  rewrite seq_S, fmap_app. unfold last_of. simpl. rewrite last_snoc. simpl.
  now rewrite Nat.sub_0_r.
Qed.




Lemma sum_final_equity_fmap (f : string → summary_row) (ts : list string) :
  sum_final_equity (f <$> ts) = qsum (λ t, final_equity (f t)) ts.
Proof.
  unfold sum_final_equity, qsum.
  induction ts as [|t ts IH]; [reflexivity|].
  cbn [fmap list_fmap foldr]. f_equal. exact IH.
Qed.

Section SummaryFacts.

Context {Timestamp : Type} (strftime : Timestamp → string).
Implicit Types prices_df : list (Timestamp * gmap string Q).



(** The last value of each column of the two equity tables. *)
Lemma final_equity_hold ts initial_equity rebalance_period prices_df t :
  NoDup ts → "Portfolio" ∉ ts → t ∈ ts → prices_df ≠ [] →
  last_of (default []
             (<["Portfolio" :=
                  portfolio_hold_curve
                    (run_pure strftime (length prices_df) ts initial_equity
                       rebalance_period prices_df)]>
                (equity_hold_curves
                   (run_pure strftime (length prices_df) ts initial_equity
                      rebalance_period prices_df)) !! t))
  = value_of (shares_hold (init_pure ts initial_equity prices_df)) prices_df
      (length prices_df - 1) t.
Proof.
  intros Hnd Hport Hin Hdf.
  rewrite lookup_insert_ne by (intros <-; contradiction).
  rewrite (hold_curves_explicit strftime) by (assumption || reflexivity).
  rewrite decide_True by exact Hin. simpl.
  apply (last_of_fmap_seq (λ j, value_of _ prices_df j t)).
  destruct prices_df; [contradiction | simpl; lia].
Qed.

Lemma final_equity_reb ts initial_equity rebalance_period prices_df t :
  NoDup ts → "Portfolio" ∉ ts → t ∈ ts → prices_df ≠ [] →
  last_of (default []
             (<["Portfolio" :=
                  portfolio_reb_curve
                    (run_pure strftime (length prices_df) ts initial_equity
                       rebalance_period prices_df)]>
                (equity_reb_curves
                   (run_pure strftime (length prices_df) ts initial_equity
                      rebalance_period prices_df)) !! t))
  = value_of
      (shares_reb (run_pure strftime (length prices_df - 1) ts initial_equity
                     rebalance_period prices_df))
      prices_df (length prices_df - 1) t.
Proof.
  intros Hnd Hport Hin Hdf.
  rewrite lookup_insert_ne by (intros <-; contradiction).
  rewrite (reb_curves_explicit strftime) by (assumption || reflexivity).
  rewrite decide_True by exact Hin. simpl.
  apply (last_of_fmap_seq
           (λ j, value_of (shares_reb (run_pure strftime j ts initial_equity
                                         rebalance_period prices_df))
                   prices_df j t)).
  destruct prices_df; [contradiction | simpl; lia].
Qed.

Lemma final_portfolio_hold ts initial_equity rebalance_period prices_df
    (curves : gmap string (list Q)) :
  prices_df ≠ [] →
  last_of (default []
             (<["Portfolio" :=
                  portfolio_hold_curve
                    (run_pure strftime (length prices_df) ts initial_equity
                       rebalance_period prices_df)]> curves !! "Portfolio"))
  = total_from 0 (shares_hold (init_pure ts initial_equity prices_df))
      prices_df (length prices_df - 1) ts.
Proof.
  intros Hdf. rewrite lookup_insert_eq. simpl.
  rewrite (portfolio_hold_explicit strftime) by reflexivity.
  apply (last_of_fmap_seq (λ j, total_from 0 _ prices_df j ts)).
  destruct prices_df; [contradiction | simpl; lia].
Qed.

Lemma final_portfolio_reb ts initial_equity rebalance_period prices_df
    (curves : gmap string (list Q)) :
  prices_df ≠ [] →
  last_of (default []
             (<["Portfolio" :=
                  portfolio_reb_curve
                    (run_pure strftime (length prices_df) ts initial_equity
                       rebalance_period prices_df)]> curves !! "Portfolio"))
  = total_from 0
      (shares_reb (run_pure strftime (length prices_df - 1) ts initial_equity
                     rebalance_period prices_df))
      prices_df (length prices_df - 1) ts.
Proof.
  intros Hdf. rewrite lookup_insert_eq. simpl.
  rewrite (portfolio_reb_explicit strftime) by reflexivity.
  apply (last_of_fmap_seq
           (λ j, total_from 0
                   (shares_reb (run_pure strftime j ts initial_equity
                                  rebalance_period prices_df))
                   prices_df j ts)).
  destruct prices_df; [contradiction | simpl; lia].
Qed.

(** A report that is returned, with the final state spelled out. *)
Lemma report_inr_pure ts initial_equity rebalance_period prices_df rep :
  report strftime ts initial_equity rebalance_period prices_df = inr rep →
  ts ≠ [] ∧ prices_df ≠ [] ∧ has_columns ts prices_df ∧
  final_state rep
  = run_pure strftime (length prices_df) ts initial_equity rebalance_period
      prices_df ∧
  summary_reb rep
  = summary_pure "PORTFOLIO (Rebalanced)" prices_df
      (<["Portfolio" :=
           portfolio_reb_curve
             (run_pure strftime (length prices_df) ts initial_equity
                rebalance_period prices_df)]>
         (equity_reb_curves
            (run_pure strftime (length prices_df) ts initial_equity
               rebalance_period prices_df)))
      initial_equity (1 / n_assets_of ts) ts ∧
  summary_hold rep
  = summary_pure "PORTFOLIO (Buy & Hold)" prices_df
      (<["Portfolio" :=
           portfolio_hold_curve
             (run_pure strftime (length prices_df) ts initial_equity
                rebalance_period prices_df)]>
         (equity_hold_curves
            (run_pure strftime (length prices_df) ts initial_equity
               rebalance_period prices_df)))
      initial_equity (1 / n_assets_of ts) ts.
Proof.
  intros (Hs & Hreb & Hhold & _ & Hsr & Hsh)%(report_inr strftime).
  pose proof (simulate_inr_wf strftime _ _ _ _ _ Hs) as (Hts & Hdf & Hcols & _).
  unfold simulate in Hs. apply simulate_upto_pure in Hs as [_ Hs].
  rewrite Hreb in Hsr. rewrite Hhold in Hsh. rewrite Hs in Hsr, Hsh.
  auto 10.
Qed.

End SummaryFacts.

Section HoldSummary.

Context {Timestamp : Type} (strftime : Timestamp → string).
Implicit Types prices_df : list (Timestamp * gmap string Q).



End HoldSummary.


Lemma Portfolio_not_a_scenario_ticker : "Portfolio" ∉ scenario_tickers.
Proof.
  unfold scenario_tickers. rewrite !elem_of_cons, elem_of_nil.
  intuition discriminate.
Qed.





(** X13: in both summaries the final equities shown for the tickers add up
    to the final equity shown for the portfolio, when the tickers are
    distinct and none is called "Portfolio". *)
Theorem final_equities_sum_to_portfolio {Timestamp : Type}
    (strftime : Timestamp → string) (ts : list string)
    (initial_equity rebalance_period : Z)
    (prices_df : list (Timestamp * gmap string Q)) (rep : report_data) :
  report strftime ts initial_equity rebalance_period prices_df = inr rep →
  NoDup ts → "Portfolio" ∉ ts →
  ∃ rows_r p_r rows_h p_h,
    summary_reb rep = rows_r ++ [p_r] ∧ summary_hold rep = rows_h ++ [p_h] ∧
    Ticker <$> rows_r = ts ∧ Ticker <$> rows_h = ts ∧
    (sum_final_equity rows_r == final_equity p_r)%Q ∧
    (sum_final_equity rows_h == final_equity p_h)%Q.
Proof.
  intros (Hts & Hdf & Hcols & _ & -> & ->)%(report_inr_pure strftime) Hnd Hport.
  unfold summary_pure. eexists _, _, _, _.
  split; [reflexivity|]. split; [reflexivity|].
  assert (Htick : ∀ (df : gmap string (list Q)) (l : list string),
            Ticker <$> (summary_row_pure prices_df df initial_equity
                          (1 / n_assets_of ts) <$> l) = l).
  { intros df l. induction l as [|t l IH]; [reflexivity|]. simpl. now f_equal. }
  split; [apply Htick|]. split; [apply Htick|].
  rewrite !sum_final_equity_fmap. unfold portfolio_row_pure, summary_row_pure.
  cbn [final_equity].
  rewrite (final_portfolio_reb strftime), (final_portfolio_hold strftime)
    by exact Hdf.
  rewrite !total_from_qsum. split.
  - rewrite (qsum_ext _ (value_of
                           (shares_reb
                              (run_pure strftime (length prices_df - 1) ts
                                 initial_equity rebalance_period prices_df))
                           prices_df (length prices_df - 1))).
    + ring.
    + intros t Hin. now rewrite (final_equity_reb strftime) by assumption.
  - rewrite (qsum_ext _ (value_of
                           (shares_hold (init_pure ts initial_equity prices_df))
                           prices_df (length prices_df - 1))).
    + ring.
    + intros t Hin. now rewrite (final_equity_hold strftime) by assumption.
Qed.

Lemma final_equities_sum_to_portfolio_witness :
  ∃ rep,
    scenario_report = inr rep ∧
    ∃ rows_r p_r rows_h p_h,
      summary_reb rep = rows_r ++ [p_r] ∧ summary_hold rep = rows_h ++ [p_h] ∧
      Ticker <$> rows_r = scenario_tickers ∧
      Ticker <$> rows_h = scenario_tickers ∧
      (sum_final_equity rows_r == final_equity p_r)%Q ∧
      (sum_final_equity rows_h == final_equity p_h)%Q.
Proof.
  destruct scenario_report_returns as [rep Hrep].
  exists rep. split; [exact Hrep|].
  apply (final_equities_sum_to_portfolio (λ d : string, d) scenario_tickers
           1000000 2 scenario_prices rep Hrep).
  - exact scenario_tickers_distinct.
  - exact Portfolio_not_a_scenario_ticker.
Defined.

Section Idle.

Context {Timestamp : Type} (strftime : Timestamp → string).
Implicit Types prices_df : list (Timestamp * gmap string Q).

(** Without a rebalance the two trackers end with the same curves. *)
Lemma no_rebalance_state ts initial_equity rebalance_period prices_df :
  (Z.of_nat (length prices_df) - 1 < rebalance_period)%Z →
  ∀ k,
    equity_reb_curves
      (run_pure strftime k ts initial_equity rebalance_period prices_df)
    = equity_hold_curves
        (run_pure strftime k ts initial_equity rebalance_period prices_df) ∧
    portfolio_reb_curve
      (run_pure strftime k ts initial_equity rebalance_period prices_df)
    = portfolio_hold_curve
        (run_pure strftime k ts initial_equity rebalance_period prices_df).
Proof.
  intros Hperiod k.
  enough (H : shares_reb (run_pure strftime k ts initial_equity rebalance_period
                            prices_df)
              = shares_hold (run_pure strftime k ts initial_equity
                               rebalance_period prices_df)
              ∧ equity_reb_curves (run_pure strftime k ts initial_equity
                                     rebalance_period prices_df)
                = equity_hold_curves (run_pure strftime k ts initial_equity
                                        rebalance_period prices_df)
              ∧ portfolio_reb_curve (run_pure strftime k ts initial_equity
                                       rebalance_period prices_df)
                = portfolio_hold_curve (run_pure strftime k ts initial_equity
                                          rebalance_period prices_df))
    by tauto.
  apply (run_pure_ind strftime
           (λ s, shares_reb s = shares_hold s ∧
                 equity_reb_curves s = equity_hold_curves s ∧
                 portfolio_reb_curve s = portfolio_hold_curve s)).
  - repeat split; reflexivity.
  - intros j date row s Hj (Hshares & Hcurves & Hportfolio).
    assert (Hdue : rebalance_due j rebalance_period = false).
    { apply rebalance_due_false. intros [Hpos Hmod].
      apply lookup_lt_Some in Hj.
      rewrite Z.mod_small in Hmod by lia. lia. }
    unfold day_pure. rewrite Hdue. simpl.
    rewrite Hshares, Hcurves, Hportfolio. auto.
Qed.

End Idle.

(** X14: when rebalance_period is greater than len - 1, the two summaries
    show the same rows for the tickers and the same final equity and equity
    growth for the portfolio; only the label of the portfolio row differs. *)
Theorem no_rebalance_summaries_agree {Timestamp : Type}
    (strftime : Timestamp → string) (ts : list string)
    (initial_equity rebalance_period : Z)
    (prices_df : list (Timestamp * gmap string Q)) (rep : report_data) :
  report strftime ts initial_equity rebalance_period prices_df = inr rep →
  (Z.of_nat (length prices_df) - 1 < rebalance_period)%Z →
  equity_reb_df rep = equity_hold_df rep ∧
  ∃ rows p_r p_h,
    summary_reb rep = rows ++ [p_r] ∧ summary_hold rep = rows ++ [p_h] ∧
    Ticker p_r = "PORTFOLIO (Rebalanced)" ∧ Ticker p_h = "PORTFOLIO (Buy & Hold)" ∧
    final_equity p_r = final_equity p_h ∧
    equity_growth_pct p_r = equity_growth_pct p_h.
Proof.
  intros Hrep Hperiod.
  pose proof Hrep as (Hs & Hreb & Hhold & _ & Hsr & Hsh)%(report_inr strftime).
  unfold simulate in Hs. apply simulate_upto_pure in Hs as [_ Hs].
  destruct (no_rebalance_state strftime ts initial_equity rebalance_period
              prices_df Hperiod (length prices_df)) as [Hcurves Hportfolio].
  rewrite <- Hs in Hcurves, Hportfolio.
  assert (Hdf : equity_reb_df rep = equity_hold_df rep)
    by (rewrite Hreb, Hhold, Hcurves, Hportfolio; reflexivity).
  split; [exact Hdf|].
  rewrite Hsr, Hsh, Hdf. unfold summary_pure.
  eexists _, _, _. repeat split; reflexivity.
Qed.

Lemma no_rebalance_summaries_agree_witness :
  ∃ rep,
    report (λ d : string, d) scenario_tickers 1000000 3 scenario_prices
      = inr rep ∧
    equity_reb_df rep = equity_hold_df rep ∧
    ∃ rows p_r p_h,
      summary_reb rep = rows ++ [p_r] ∧ summary_hold rep = rows ++ [p_h] ∧
      Ticker p_r = "PORTFOLIO (Rebalanced)" ∧
      Ticker p_h = "PORTFOLIO (Buy & Hold)" ∧
      final_equity p_r = final_equity p_h ∧
      equity_growth_pct p_r = equity_growth_pct p_h.
Proof.
  destruct (report_returns (λ d : string, d) scenario_tickers 1000000 3
              scenario_prices idle_state) as [rep Hrep].
  - vm_compute. reflexivity.
  - exact scenario_tickers_distinct.
  - exists rep. split; [exact Hrep|].
    apply (no_rebalance_summaries_agree (λ d : string, d) scenario_tickers
             1000000 3 scenario_prices rep Hrep).
    simpl. lia.
Defined.

(** ** The download loop and the ticker names *)

Section Fetch.

Context {Frame : Type} (download : string → Frame) (frame_empty : Frame → bool).

Lemma fetch_all tickers price_data :
  (∀ t, t ∈ tickers → frame_empty (download t) = false) →
  fetch download frame_empty tickers price_data
  = (Download <$> tickers,
     Some (price_data ++ ((λ t, (replace_JK t, download t)) <$> tickers))).
Proof.
  revert price_data. induction tickers as [|t rest IH]; intros price_data Hdata.
  - simpl. now rewrite app_nil_r.
  - simpl. rewrite (Hdata t) by left.
    rewrite IH by (intros t' Hin; apply Hdata; now right).
    simpl. now rewrite <- app_assoc.
Qed.

Lemma fetch_stops before bad after price_data :
  (∀ t, t ∈ before → frame_empty (download t) = false) →
  frame_empty (download bad) = true →
  fetch download frame_empty (before ++ bad :: after) price_data
  = ((Download <$> before) ++ [Download bad; UiError ("No data for " +:+ bad)],
     None).
Proof.
  revert price_data. induction before as [|t rest IH]; intros price_data Hdata Hbad.
  - simpl. now rewrite Hbad.
  - simpl. rewrite (Hdata t) by left.
    rewrite IH by (try exact Hbad; intros t' Hin; apply Hdata; now right).
    reflexivity.
Qed.

End Fetch.

(** X15: when a ticker has no data, the run downloads the tickers up to and
    including that one, shows "No data for <ticker>" and stops: no later
    ticker is downloaded and nothing is simulated. *)
Theorem run_stops_at_first_missing {Timestamp Frame : Type}
    (strftime : Timestamp → string)
    (download : string → Frame) (frame_empty : Frame → bool)
    (assemble : list string → list (string * Frame) →
                result (list (Timestamp * gmap string Q)))
    (before after : list string) (bad : string)
    (initial_equity rebalance_period : Z) :
  (2 ≤ length (before ++ bad :: after) ≤ 5)%nat →
  (∀ t, t ∈ before → frame_empty (download t) = false) →
  frame_empty (download bad) = true →
  run strftime download frame_empty assemble (before ++ bad :: after)
    initial_equity rebalance_period
  = ((Download <$> before) ++ [Download bad; UiError ("No data for " +:+ bad)],
     Stopped).
Proof.
  intros [Hlo Hhi] Hdata Hbad. unfold run.
  destruct (Nat.leb_spec 2 (length (before ++ bad :: after))); [|lia].
  destruct (Nat.leb_spec (length (before ++ bad :: after)) 5); [|lia].
  simpl. now rewrite (fetch_stops download frame_empty) by assumption.
Qed.

Lemma run_stops_at_first_missing_witness :
  run (λ d : string, d) (λ t : string, t) (all_but "BMRI.JK")
    (λ _ _, inr scenario_prices) (["BBCA.JK"] ++ "BMRI.JK" :: ["BBRI.JK"])
    100000000 20
  = ((Download <$> ["BBCA.JK"])
     ++ [Download "BMRI.JK"; UiError ("No data for " +:+ "BMRI.JK")],
     Stopped).
Proof.
  apply (run_stops_at_first_missing (λ d : string, d) (λ t : string, t)
           (all_but "BMRI.JK") (λ _ _, inr scenario_prices)
           ["BBCA.JK"] ["BBRI.JK"] "BMRI.JK" 100000000 20).
  - simpl. lia.
  - intros t Hin. apply list_elem_of_singleton in Hin as ->. reflexivity.
  - reflexivity.
Defined.

(** X16: when the count is in range and every ticker has data, the run
    downloads each ticker once, in the order given, hands the data keyed by
    the cleaned names to the assembly of the table, and ends as the
    simulation on that table ends. *)
Theorem run_with_data {Timestamp Frame : Type}
    (strftime : Timestamp → string)
    (download : string → Frame) (frame_empty : Frame → bool)
    (assemble : list string → list (string * Frame) →
                result (list (Timestamp * gmap string Q)))
    (tickers : list string) (initial_equity rebalance_period : Z) :
  (2 ≤ length tickers ≤ 5)%nat →
  (∀ t, t ∈ tickers → frame_empty (download t) = false) →
  run strftime download frame_empty assemble tickers initial_equity
    rebalance_period
  = (Download <$> tickers,
     match assemble (tickers_clean_of tickers)
             ((λ t, (replace_JK t, download t)) <$> tickers) with
     | inl e => Raised e
     | inr prices_df =>
         match simulate strftime (tickers_clean_of tickers) initial_equity
                 rebalance_period prices_df with
         | inl e => Raised e
         | inr s => Completed s
         end
     end).
Proof.
  intros [Hlo Hhi] Hdata. unfold run.
  destruct (Nat.leb_spec 2 (length tickers)); [|lia].
  destruct (Nat.leb_spec (length tickers) 5); [|lia].
  simpl. rewrite (fetch_all download frame_empty) by assumption. simpl.
  destruct (assemble _ _) as [e|prices_df]; [reflexivity|].
  destruct (simulate _ _ _ _ _); reflexivity.
Qed.

Lemma run_with_data_witness :
  run (λ d : string, d) (λ t : string, t) (λ _, false)
    (λ _ _, inr scenario_prices) ["A.JK"; "B.JK"] 1000000 2
  = (Download <$> ["A.JK"; "B.JK"],
     match (inr scenario_prices : result (list (string * gmap string Q))) with
     | inl e => Raised e
     | inr prices_df =>
         match simulate (λ d : string, d) (tickers_clean_of ["A.JK"; "B.JK"])
                 1000000 2 prices_df with
         | inl e => Raised e
         | inr s => Completed s
         end
     end).
Proof.
  apply (run_with_data (λ d : string, d) (λ t : string, t) (λ _, false)
           (λ _ _, inr scenario_prices) ["A.JK"; "B.JK"] 1000000 2).
  - simpl. lia.
  - reflexivity.
Defined.

(** X17: cleaning a ticker gives back the name it was built from: for a
    name without a dot, removing ".JK" from name + ".JK" yields the name, so
    the cleaned tickers of such names are the names themselves. *)
Theorem clean_recovers_name (names : list string) :
  (∀ name, name ∈ names → has_dot name = false) →
  tickers_clean_of ((λ name, name +:+ ".JK") <$> names) = names.
Proof.
  assert (Hone : ∀ name, has_dot name = false →
            replace_JK (name +:+ ".JK") = name).
  { unfold replace_JK. induction name as [|c name IH]; intros Hdot.
    - reflexivity.
    - simpl in Hdot. apply orb_false_iff in Hdot as [Hc Hdot].
      change (String c name +:+ ".JK") with (String c (name +:+ ".JK")).
      cbn [replace_JK_from].
      change (String.prefix ".JK" (String c (name +:+ ".JK")))
        with (if Ascii.ascii_dec dot c
              then String.prefix "JK" (name +:+ ".JK") else false).
      destruct (Ascii.ascii_dec dot c) as [<-|Hne];
        [vm_compute in Hc; discriminate|].
      f_equal. now apply IH. }
  unfold tickers_clean_of. intros Hdots.
  induction names as [|name names IH]; [reflexivity|].
  cbn [fmap list_fmap]. f_equal.
  - apply Hone, Hdots. left.
  - apply IH. intros name' Hin. apply Hdots. now right.
Qed.

Lemma clean_recovers_name_witness :
  tickers_clean_of ((λ name, name +:+ ".JK") <$> ["BBCA"; "BMRI"; "BBRI"])
  = ["BBCA"; "BMRI"; "BBRI"].
Proof.
  apply (clean_recovers_name ["BBCA"; "BMRI"; "BBRI"]).
  intros name Hin. rewrite !elem_of_cons, elem_of_nil in Hin.
  destruct Hin as [->|[->|[->|[]]]]; reflexivity.
Defined.
